(** * MyDict: the vocabulary entry model ([language_dictionary/word.py])

    A shallow embedding of the [Word] class.  Python [str] values are Rocq
    strings whose characters are read as the code points U+0000..U+00FF
    (Latin-1, which covers the German alphabet); the string built-ins used
    by the class ([strip], [lower], [split], [join], [isalpha], [repr]) are
    written out for that range.  Exceptions are values of [exn], carried by
    the [result] monad in the order the interpreter would raise them.

    The package's [__init__.py] ([SUPPORTED_LANGUAGES], [ARTICLES],
    [utils.replace_odd_characters]) is not part of the sources at hand: the
    class is embedded over these three names as section variables, and a
    concrete table following the written specification is used to run the
    definitions on examples. *)

From Stdlib Require Import Ascii String.
From stdpp Require Import base strings gmap list.

Local Open Scope string_scope.
Local Open Scope nat_scope.
Local Open Scope list_scope.

(** ** Exceptions and the error monad *)

Inductive exn : Type :=
  | WordError (msg : string)
  | AssertionError (msg : string)
  | ValueError (msg : string)
  | KeyError (key : string)
  | TypeError
  | IndexError.

Inductive result (A : Type) : Type :=
  | Return (a : A)
  | Raise (e : exn).

Arguments Return {A} a.
Arguments Raise {A} e.

Definition bind {A B : Type} (r : result A) (k : A → result B) : result B :=
  match r with
  | Return a => k a
  | Raise e => Raise e
  end.

Notation "'let!' x ':=' r 'in' k" := (bind r (λ x, k))
  (at level 10, x name, r at level 100, k at level 200).

Definition is_WordError {A} (r : result A) : Prop :=
  match r with Raise (WordError _) => True | _ => False end.

Definition is_AssertionError {A} (r : result A) : Prop :=
  match r with Raise (AssertionError _) => True | _ => False end.

Definition succeeds {A} (r : result A) : Prop :=
  match r with Return _ => True | Raise _ => False end.

(** ** The string built-ins *)

Module Py.

Definition code (c : ascii) : nat := nat_of_ascii c.

Definition between (lo hi n : nat) : bool := (lo <=? n) && (n <=? hi).

(** [str.isspace] on one character. *)
Definition isspace (c : ascii) : bool :=
  let n := code c in
  between 9 13 n || between 28 32 n || (n =? 133) || (n =? 160).

(** [str.isalpha] on one character. *)
Definition isalpha (c : ascii) : bool :=
  let n := code c in
  between 65 90 n || between 97 122 n
  || (n =? 170) || (n =? 181) || (n =? 186)
  || between 192 214 n || between 216 246 n || between 248 255 n.

Definition isprintable (c : ascii) : bool :=
  let n := code c in
  negb (between 0 31 n || between 127 160 n || (n =? 173)).

Definition lower_char (c : ascii) : ascii :=
  let n := code c in
  if between 65 90 n || between 192 214 n || between 216 222 n
  then ascii_of_nat (n + 32) else c.

Definition upper_char (c : ascii) : ascii :=
  let n := code c in
  if between 97 122 n || between 224 246 n || between 248 254 n
  then ascii_of_nat (n - 32) else c.

(** [s.lower()] *)
Fixpoint lower (s : string) : string :=
  match s with
  | EmptyString => EmptyString
  | String c s' => String (lower_char c) (lower s')
  end.

Fixpoint lstrip (s : string) : string :=
  match s with
  | EmptyString => EmptyString
  | String c s' => if isspace c then lstrip s' else s
  end.

Fixpoint rstrip (s : string) : string :=
  match s with
  | EmptyString => EmptyString
  | String c s' =>
      match rstrip s' with
      | EmptyString => if isspace c then EmptyString else String c EmptyString
      | r => String c r
      end
  end.

(** [s.capitalize()]: the first character in upper case, the others in
    lower case.  The sharp s becomes [Ss]; the two letters whose capital
    lies beyond U+00FF (micro sign, y with diaeresis) are kept. *)
Definition capitalize (s : string) : string :=
  match s with
  | EmptyString => EmptyString
  | String c s' =>
      if code c =? 223 then String "S" (String "s" (lower s'))
      else String (upper_char c) (lower s')
  end.

(** [s.strip()] *)
Definition strip (s : string) : string := rstrip (lstrip s).

(** The scanner behind [s.split(sep)] for a non-empty [sep]: [skip] counts
    the characters of a matched separator still to be passed over; the
    head of the result is the field being read. *)
Fixpoint split_scan (sep : string) (skip : nat) (s : string) : list string :=
  match s with
  | EmptyString => [EmptyString]
  | String c s' =>
      match skip with
      | S k => split_scan sep k s'
      | O =>
          if String.prefix sep s
          then EmptyString :: split_scan sep (String.length sep - 1) s'
          else match split_scan sep 0 s' with
               | field :: fields => String c field :: fields
               | [] => [String c EmptyString]
               end
      end
  end.

(** [s.split(sep)] for a separator known not to be empty. *)
Definition split_on (sep s : string) : list string := split_scan sep 0 s.

(** [s.split(sep)]; an empty separator is refused. *)
Definition split (s sep : string) : result (list string) :=
  match sep with
  | EmptyString => Raise (ValueError "empty separator")
  | _ => Return (split_on sep s)
  end.

(** [sep.join(l)] for a list of strings. *)
Definition join (sep : string) (l : list string) : string :=
  String.concat sep l.

(** Iterating a string yields its characters as one-character strings. *)
Fixpoint chars (s : string) : list string :=
  match s with
  | EmptyString => []
  | String c s' => String c EmptyString :: chars s'
  end.

Definition contains_char (c : ascii) (s : string) : bool :=
  bool_decide (String c EmptyString ∈ chars s).

Definition hex_digit (n : nat) : ascii :=
  ascii_of_nat (if n <? 10 then 48 + n else 87 + n).

Definition repr_char (quote : ascii) (c : ascii) : string :=
  let n := code c in
  if (n =? code quote) || (n =? 92) then String "\" (String c EmptyString)
  else if n =? 9 then "\t"
  else if n =? 10 then "\n"
  else if n =? 13 then "\r"
  else if isprintable c then String c EmptyString
  else String "\" (String "x"
         (String (hex_digit (n / 16)) (String (hex_digit (n mod 16)) EmptyString))).

Fixpoint repr_body (quote : ascii) (s : string) : string :=
  match s with
  | EmptyString => EmptyString
  | String c s' => repr_char quote c +:+ repr_body quote s'
  end.

(** [repr(s)] for a string: single quotes, unless the text holds a single
    quote and no double quote. *)
Definition repr_str (s : string) : string :=
  let dquote : ascii := ascii_of_nat 34 in
  let quote : ascii :=
    if contains_char "'" s && negb (contains_char dquote s) then dquote else "'"%char in
  String quote (repr_body quote s +:+ String quote EmptyString).

(** [str(l)] (which is [repr(l)]) for a list of strings. *)
Definition repr_list (l : list string) : string :=
  "[" +:+ join ", " (repr_str <$> l) +:+ "]".

End Py.

(** ** The [Word] class *)

Definition tab : string := String (ascii_of_nat 9) EmptyString.
Definition newline : string := String (ascii_of_nat 10) EmptyString.

Definition WORD_TAGS : gset string :=
  list_to_set ["adj"; "adv"; "conj"; "expr"; "n"; "pron"; "prep"; "f"; "m"; "nt"; "pl"; "v"].

Definition WORD_KEYS : list string := ["word"; "meanings"; "examples"; "other"; "tags"].

Definition LINE_SEP : string := "<br>".

(** The set literal of [format_tags]. *)
Definition GENDER_NUMBER : gset string := list_to_set ["f"; "m"; "nt"; "pl"].

(** The attributes of an instance.  [meanings] is stored as it is given,
    so it may be [None]; [examples] and [other] are always lists. *)
Record Word : Type := mkWord {
  language : string;
  self_ARTICLES : list string;
  tags : list string;
  word : string;
  meanings : option (list string);
  examples : list string;
  other : list string;
  sep : string
}.

(** The three list-valued attributes, as [getattr]/[append_to_attr] name them. *)
Inductive attr : Type := attr_meanings | attr_examples | attr_other.

Definition getattr (self : Word) (a : attr) : option (list string) :=
  match a with
  | attr_meanings => meanings self
  | attr_examples => Some (examples self)
  | attr_other => Some (other self)
  end.

(** [getattr(self, attr).append(new)] *)
Definition append_attr (self : Word) (a : attr) (new : string) : result Word :=
  match a with
  | attr_meanings =>
      match meanings self with
      | Some l =>
          Return (mkWord (language self) (self_ARTICLES self) (tags self) (word self)
                    (Some (l ++ [new])) (examples self) (other self) (sep self))
      | None => Raise TypeError
      end
  | attr_examples =>
      Return (mkWord (language self) (self_ARTICLES self) (tags self) (word self)
                (meanings self) (examples self ++ [new]) (other self) (sep self))
  | attr_other =>
      Return (mkWord (language self) (self_ARTICLES self) (tags self) (word self)
                (meanings self) (examples self) (other self ++ [new]) (sep self))
  end.

(** ** The package tables, for running the class on examples *)

(** Modelled from the spec: [SUPPORTED_LANGUAGES] of the package's
    [__init__.py], which is not among the sources; the specification names
    German and speaks of a small fixed set of codes. *)
Definition spec_SUPPORTED_LANGUAGES : list string := ["de"; "fr"].

(** Modelled from the spec: [ARTICLES] of the package's [__init__.py], which
    is not among the sources; one article word-list per language, with the
    articles the specification quotes. *)
Definition spec_ARTICLES : gmap string (list string) :=
  <["de" := ["der"; "die"; "das"]]> (<["fr" := ["le"; "la"]]> ∅).

(** Modelled from the spec: [utils.replace_odd_characters], which is not
    among the sources; the sharp s becomes [ss] and an umlaut its base vowel
    followed by [e]. *)
Fixpoint spec_replace_odd_characters (s : string) : string :=
  match s with
  | EmptyString => EmptyString
  | String c s' =>
      let n := Py.code c in
      (if n =? 223 then "ss"
       else if n =? 228 then "ae" else if n =? 246 then "oe"
       else if n =? 252 then "ue" else if n =? 196 then "Ae"
       else if n =? 214 then "Oe" else if n =? 220 then "Ue"
       else String c EmptyString) +:+ spec_replace_odd_characters s'
  end.

(** A [for] loop whose body may raise, threading the instance through. *)
Fixpoint for_each {A S : Type} (body : S → A → result S) (l : list A) (s : S) : result S :=
  match l with
  | [] => Return s
  | x :: l' => let! s' := body s x in for_each body l' s'
  end.

Section WordClass.

#[local] Set Default Proof Using "Type".

(** The names the module imports from its package. *)
Variable SUPPORTED_LANGUAGES : list string.
Variable ARTICLES : gmap string (list string).
Variable replace_odd_characters : string → string.

(** [list(final_tags)]: the language does not fix the order in which a set
    is listed, only that every member is listed once (assumed where a
    result depends on it). *)
Variable list_of_set : gset string → list string.

Definition validate_language (language : string) : result string :=
  let std_language := Py.lower language in
  if bool_decide (std_language ∈ SUPPORTED_LANGUAGES)
  then Return std_language
  else Raise (WordError "Specified language is not supported").

Definition validate_tags (tags : list string) : list string :=
  filter (λ tag, tag ∈ WORD_TAGS) tags.

(** [standardize_word] reads [self.language], [self.ARTICLES] and
    [self.tags], which [__init__] has set by the time it calls it.  In the
    noun branch [part.capitalize()] is evaluated and its value dropped. *)
Definition standardize_word
    (self_language : string) (self_ARTICLES self_tags : list string)
    (word : string) : string :=
  let word := Py.strip word in
  if bool_decide (self_language ≠ "de") then Py.lower word
  else if bool_decide ("n" ∈ self_tags) then
    let standardized :=
      (λ part,
         if bool_decide (part ∉ self_ARTICLES)
         then let _ := Py.capitalize part in part
         else part) <$> Py.split_on " " word in
    Py.join " " standardized
  else if bool_decide ("expr" ∉ self_tags) then Py.lower word
  else word.

Definition __init__ (language word : string) (tags : list string)
    (meanings examples other : option (list string)) (sep : option string)
    : result Word :=
  let! self_language := validate_language language in
  let! articles :=
    match ARTICLES !! self_language with
    | Some a => Return a
    | None => Raise (KeyError self_language)
    end in
  let self_tags := validate_tags tags in
  let self_word := standardize_word self_language articles self_tags word in
  Return (mkWord self_language articles self_tags self_word meanings
            (default [] examples) (default [] other) (default tab sep)).

Definition __eq__ (self other : Word) : bool :=
  bool_decide (language self = language other)
  && bool_decide (word self = word other)
  && bool_decide (tags self = tags other).

Definition process_tags (tags : string) : list string :=
  let final_tags :=
    foldl (λ (final_tags : gset string) tag,
             if bool_decide (tag ≠ "")
             then final_tags ∪ list_to_set (Py.split_on "." tag)
             else final_tags)
          ∅ (Py.split_on " " tags) in
  list_of_set final_tags.

(** [word, *remaining_values, tags = split_line] *)
Definition unpack (split_line : list string) : result (string * list string * string) :=
  match split_line with
  | word :: rest =>
      match reverse rest with
      | tags :: middle => Return (word, reverse middle, tags)
      | [] => Raise (ValueError "not enough values to unpack")
      end
  | [] => Raise (ValueError "not enough values to unpack")
  end.

(** The body of the loop of [from_line] on one value. *)
Definition parse_value (value : string) : option (list string) :=
  let value := Py.strip value in
  if bool_decide (value = "") then None
  else Some (Py.strip <$> Py.split_on LINE_SEP value).

(** [new_entry] starts with every key at [None]; the loop sets the key of
    index [i] from the value of index [i], for [i] below three. *)
Definition from_line (language line sep : string) : result Word :=
  let! split_line := Py.split line sep in
  if bool_decide (length split_line = length WORD_KEYS) then
    let! unpacked := unpack split_line in
    let '(word, remaining_values, tags) := unpacked in
    let new_word := Py.strip word in
    let new_tags := process_tags (Py.strip tags) in
    let new_entry (i : nat) := remaining_values !! i ≫= parse_value in
    __init__ language new_word new_tags
      (new_entry 0) (new_entry 1) (new_entry 2) (Some sep)
  else
    Raise (AssertionError
             ("Found unexpected number of values using sep='" +:+ sep
              +:+ "' to parse following line:" +:+ newline +:+ line)).

(** *** Formatting *)

Definition format_tags (self : Word) : result string :=
  if bool_decide (Exists (λ tag, tag ∈ GENDER_NUMBER) (tags self)) then
    if bool_decide ("n" ∉ tags self)
    then Raise (WordError "Only nouns require gender and number tags.")
    else
      let output :=
        omap (λ tag,
                if bool_decide (tag ∈ GENDER_NUMBER) then Some ("n." +:+ tag)
                else if bool_decide (tag ≠ "n") then Some tag
                else None) (tags self) in
      Return (Py.join " " output)
  else Return (Py.join " " (tags self)).

Definition format_meanings (self : Word) : result string :=
  match meanings self with
  | Some l => Return (Py.join LINE_SEP l)
  | None => Raise TypeError
  end.

Definition format_examples (self : Word) : string :=
  Py.join LINE_SEP (examples self).

Definition format_other (self : Word) : string :=
  Py.join LINE_SEP (other self).

(** [__str__] writes [self.other] itself into the line, that is the text
    of the list, where the two fields before it go through their
    formatter. *)
Definition __str__ (self : Word) : result string :=
  let! formatted_meanings := format_meanings self in
  let printable_string :=
    word self +:+ " " +:+ sep self +:+ " " +:+ formatted_meanings
    +:+ " " +:+ sep self in
  let printable_string :=
    if bool_decide (examples self ≠ [])
    then printable_string +:+ " " +:+ format_examples self +:+ " " +:+ sep self
    else printable_string +:+ " " +:+ sep self in
  let printable_string :=
    if bool_decide (other self ≠ [])
    then printable_string +:+ " " +:+ Py.repr_list (other self) +:+ " " +:+ sep self
    else printable_string +:+ " " +:+ sep self in
  let! formatted_tags := format_tags self in
  Return (printable_string +:+ " " +:+ formatted_tags +:+ newline).

(** *** Appending and merging *)

(** One turn of the loop of [append_to_attr]; [new not in None] raises. *)
Definition append_new (a : attr) (self : Word) (new : string) : result Word :=
  let new := Py.strip new in
  if bool_decide (new = "") then Return self
  else match getattr self a with
       | None => Raise TypeError
       | Some present =>
           if bool_decide (new ∉ present) then append_attr self a new
           else Return self
       end.

Definition append_to_attr (self : Word) (a : attr) (new_value : string) : result Word :=
  for_each (append_new a) (Py.split_on LINE_SEP new_value) self.

Definition add_meaning (self : Word) (new_meaning : string) : result Word :=
  append_to_attr self attr_meanings new_meaning.

Definition add_example (self : Word) (new_example : string) : result Word :=
  append_to_attr self attr_examples new_example.

Definition add_other (self : Word) (new_other : string) : result Word :=
  append_to_attr self attr_other new_other.

(** The loop of [merge] over one attribute; it reads the list of [other]. *)
Definition merge_attr (other : Word) (self : Word) (a : attr) : result Word :=
  match getattr other a with
  | None => Raise TypeError
  | Some values =>
      for_each (λ self value,
                  if bool_decide (value ≠ "") then append_to_attr self a value
                  else Return self)
               values self
  end.

(** [merge] returns nothing and changes [self]: the result is [self] after
    the call.  The three attributes are independent of one another, so the
    order in which the set literal lists them does not show in it. *)
Definition merge (self other : Word) : result Word :=
  if __eq__ self other
  then for_each (merge_attr other) [attr_meanings; attr_examples; attr_other] self
  else Return self.

(** *** The sort key *)

(** The loop of [get_sortable_word] from index [i] on: the index and the
    initial at the [break], [None] when the loop runs to its end. *)
Fixpoint find_initial (self_ARTICLES : list string) (i : nat) (parts : list string)
    : result (option (nat * ascii)) :=
  match parts with
  | [] => Return None
  | part :: parts' =>
      let part := Py.strip part in
      if bool_decide (Py.lower part ∉ self_ARTICLES) then
        match part with
        | EmptyString => Raise IndexError
        | String c _ =>
            if Py.isalpha c then Return (Some (i, c))
            else find_initial self_ARTICLES (S i) parts'
        end
      else find_initial self_ARTICLES (S i) parts'
  end.

(** The value returned is [" ".join(split_word[i])]: the characters of the
    part of index [i], joined by spaces. *)
Definition get_sortable_word (self : Word) : result string :=
  let self_word := word self in
  let word := replace_odd_characters self_word in
  let split_word := Py.split_on " " word in
  let! found := find_initial (self_ARTICLES self) 0 split_word in
  match found with
  | None =>
      Raise (WordError ("Unable to determine the initial for '" +:+ self_word +:+ "'."))
  | Some (i, initial) =>
      match split_word !! i with
      | Some part => Return (Py.join " " (Py.chars part))
      | None => Raise IndexError
      end
  end.

Definition get_initial (self : Word) : result string :=
  let! sortable := get_sortable_word self in
  match sortable with
  | EmptyString => Raise IndexError
  | String c _ => Return (String c EmptyString)
  end.



(** *** The noun branch as the specification words it *)

(** The first letter of a part in upper case, the other letters as given. *)
Definition capitalize_first (part : string) : string :=
  match part with
  | EmptyString => EmptyString
  | String c part' => String (Py.upper_char c) part'
  end.

(** The headword the specification describes for a noun of the
    article-bearing language: the trimmed headword split on spaces, every
    part that is no article with its first letter capitalized, joined by
    single spaces. *)
Definition noun_headword_spec (self_ARTICLES : list string) (word : string) : string :=
  Py.join " "
    ((λ part, if bool_decide (part ∉ self_ARTICLES) then capitalize_first part else part)
       <$> Py.split_on " " (Py.strip word)).

(** *** The sort key as the specification words it *)

(** The key the specification describes: the parts of the headword from the
    first part on that is no article and begins with a letter, joined by
    single spaces. *)
Definition sortable_word_spec (self : Word) : result string :=
  let split_word := Py.split_on " " (replace_odd_characters (word self)) in
  let! found := find_initial (self_ARTICLES self) 0 split_word in
  match found with
  | None => Raise (WordError "no part to sort by")
  | Some (i, _) => Return (Py.join " " (drop i split_word))
  end.

(** Two lists that hold the same values, whatever the order and the count. *)
Definition set_equal (l1 l2 : list string) : Prop := ∀ x : string, x ∈ l1 ↔ x ∈ l2.

(** ** Facts about the string built-ins *)

Lemma split_scan_nonempty (sep : string) (skip : nat) (s : string) :
  Py.split_scan sep skip s ≠ [].
Proof.
  revert skip. induction s as [|c s IH]; intros skip; [done|].
  cbn [Py.split_scan]. destruct skip as [|k]; [|apply IH].
  destruct (String.prefix sep (String c s)); [done|].
  destruct (Py.split_scan sep 0 s); done.
Qed.

Lemma join_cons (sep x : string) (l : list string) :
  l ≠ [] → Py.join sep (x :: l) = x +:+ sep +:+ Py.join sep l.
Proof. destruct l; [done|]. reflexivity. Qed.

(** Joining by a space what was split on spaces gives the text back. *)
Lemma join_split_space (s : string) : Py.join " " (Py.split_on " " s) = s.
Proof.
  unfold Py.split_on. induction s as [|c s IH]; [reflexivity|].
  cbn [Py.split_scan String.prefix String.length Nat.sub].
  destruct (Ascii.ascii_dec " " c) as [<-|Hc].
  - replace (String.prefix EmptyString s) with true by (by destruct s).
    rewrite join_cons by apply split_scan_nonempty.
    rewrite IH. reflexivity.
  - pose proof (split_scan_nonempty " " 0 s) as Hne.
    destruct (Py.split_scan " " 0 s) as [|field fields]; [done|].
    rewrite <- IH. destruct fields; reflexivity.
Qed.

Lemma lower_idempotent (s : string) : Py.lower (Py.lower s) = Py.lower s.
Proof.
  induction s as [|c s IH]; [reflexivity|]. simpl. rewrite IH. f_equal.
  destruct c as [[] [] [] [] [] [] [] []]; reflexivity.
Qed.

(** ** The headword *)

(** In the noun branch every part is appended as it was read, so the branch
    rebuilds the trimmed headword. *)
Lemma standardize_word_noun (self_ARTICLES self_tags : list string) (raw : string) :
  "n" ∈ self_tags →
  standardize_word "de" self_ARTICLES self_tags raw = Py.strip raw.
Proof.
  intros Hn. unfold standardize_word.
  rewrite bool_decide_eq_false_2 by (intros H; by apply H).
  rewrite bool_decide_eq_true_2 by done.
  rewrite <- (join_split_space (Py.strip raw)) at 2. f_equal.
  rewrite <- (list_fmap_id (Py.split_on " " (Py.strip raw))) at 2.
  apply list_fmap_ext. intros i part _. by case_bool_decide.
Qed.

(** A headword that trims to nothing is stored as the empty string by every
    branch. *)
Lemma standardize_word_empty
    (self_language : string) (self_ARTICLES self_tags : list string) (raw : string) :
  Py.strip raw = "" →
  standardize_word self_language self_ARTICLES self_tags raw = "".
Proof.
  intros Hraw. unfold standardize_word. rewrite Hraw.
  repeat case_bool_decide; try reflexivity.
  cbv [Py.split_on Py.split_scan fmap list_fmap Py.join String.concat].
  by case_bool_decide.
Qed.

(** C5 (as amended): a raw headword that is empty once trimmed does not make
    construction fail; for a supported language that has its article list
    the entry is built and its headword is the empty string. *)
Theorem init_stores_empty_headword
    (language raw : string) (raw_tags : list string)
    (raw_meanings raw_examples raw_other : option (list string))
    (raw_sep : option string) (articles : list string) :
  Py.strip raw = "" →
  Py.lower language ∈ SUPPORTED_LANGUAGES →
  ARTICLES !! Py.lower language = Some articles →
  ∃ w : Word,
    __init__ language raw raw_tags raw_meanings raw_examples raw_other raw_sep = Return w
    ∧ word w = "".
Proof.
  intros Hraw Hlang Harts. unfold __init__, validate_language.
  rewrite bool_decide_eq_true_2 by done. cbn [bind]. rewrite Harts.
  eexists. split; [reflexivity|]. cbn [word].
  by apply standardize_word_empty.
Qed.

(** ** Language codes *)

Lemma init_outcome
    (lang raw : string) (raw_tags : list string)
    (raw_meanings raw_examples raw_other : option (list string))
    (raw_sep : option string) :
  __init__ lang raw raw_tags raw_meanings raw_examples raw_other raw_sep =
    if bool_decide (Py.lower lang ∈ SUPPORTED_LANGUAGES) then
      match ARTICLES !! Py.lower lang with
      | Some articles =>
          Return (mkWord (Py.lower lang) articles (validate_tags raw_tags)
                    (standardize_word (Py.lower lang) articles (validate_tags raw_tags) raw)
                    raw_meanings (default [] raw_examples) (default [] raw_other)
                    (default tab raw_sep))
      | None => Raise (KeyError (Py.lower lang))
      end
    else Raise (WordError "Specified language is not supported").
Proof.
  unfold __init__, validate_language. case_bool_decide; [|reflexivity].
  cbn [bind]. by destruct (ARTICLES !! Py.lower lang).
Qed.

(** C10: the language code is put in lower case before it is looked up in
    the supported set; validation succeeds exactly when the lower-case code
    is supported, raises [WordError] exactly when it is not, and returns the
    lower-case code; a code and its lower-case form are treated alike; and
    an entry that is built stores the lower-case code, construction raising
    [WordError] exactly when that code is not supported. *)
Theorem validate_language_lowercases (lang : string) :
  (succeeds (validate_language lang) ↔ Py.lower lang ∈ SUPPORTED_LANGUAGES)
  ∧ (is_WordError (validate_language lang) ↔ Py.lower lang ∉ SUPPORTED_LANGUAGES)
  ∧ match validate_language lang with
    | Return code => code = Py.lower lang
    | Raise _ => Py.lower lang ∉ SUPPORTED_LANGUAGES
    end
  ∧ validate_language (Py.lower lang) = validate_language lang
  ∧ ∀ (raw : string) (raw_tags : list string)
      (raw_meanings raw_examples raw_other : option (list string))
      (raw_sep : option string),
      let built :=
        __init__ lang raw raw_tags raw_meanings raw_examples raw_other raw_sep in
      (is_WordError built ↔ Py.lower lang ∉ SUPPORTED_LANGUAGES)
      ∧ match built with
        | Return w => language w = Py.lower lang ∧ language w ∈ SUPPORTED_LANGUAGES
        | Raise _ => True
        end.
Proof.
  repeat split.
  - unfold validate_language. by case_bool_decide.
  - unfold validate_language. intros H. by rewrite bool_decide_eq_true_2.
  - unfold validate_language. by case_bool_decide.
  - unfold validate_language. intros H. by rewrite bool_decide_eq_false_2.
  - unfold validate_language. by case_bool_decide.
  - unfold validate_language. by rewrite lower_idempotent.
  - rewrite init_outcome. case_bool_decide; [|done].
    by destruct (ARTICLES !! Py.lower lang).
  - rewrite init_outcome. intros H. by rewrite bool_decide_eq_false_2.
  - rewrite init_outcome. case_bool_decide; [|done].
    by destruct (ARTICLES !! Py.lower lang).
Qed.

(** ** Parsing a line *)

Lemma init_not_assertion
    (lang raw : string) (raw_tags : list string)
    (raw_meanings raw_examples raw_other : option (list string))
    (raw_sep : option string) :
  ¬ is_AssertionError
      (__init__ lang raw raw_tags raw_meanings raw_examples raw_other raw_sep).
Proof.
  rewrite init_outcome. case_bool_decide; [|by intros []].
  destruct (ARTICLES !! Py.lower lang); by intros [].
Qed.

Lemma split_nonempty_sep (line sep : string) :
  sep ≠ "" → Py.split line sep = Return (Py.split_on sep line).
Proof. by destruct sep. Qed.

(** What [from_line] does with a line of five fields. *)
Lemma from_line_five (lang line sep word v1 v2 v3 tags_field : string) :
  Py.split line sep = Return [word; v1; v2; v3; tags_field] →
  from_line lang line sep =
    __init__ lang (Py.strip word) (process_tags (Py.strip tags_field))
      (parse_value v1) (parse_value v2) (parse_value v3) (Some sep).
Proof. intros Hsplit. unfold from_line. rewrite Hsplit. reflexivity. Qed.

Lemma length_five (l : list string) :
  length l = 5 → ∃ a b c d e, l = [a; b; c; d; e].
Proof.
  intros H. do 5 (destruct l as [|? l]; [done|]).
  destruct l; [|done]. by do 5 eexists.
Qed.

(** C6: for a line and a separator (split refuses the empty one), parsing
    fails on the field-count assertion exactly when splitting the line on
    the separator does not give five fields. *)
Theorem from_line_field_count (lang line sep : string) :
  sep ≠ "" →
  is_AssertionError (from_line lang line sep)
  ↔ length (Py.split_on sep line) ≠ 5.
Proof.
  intros Hsep. pose proof (split_nonempty_sep line sep Hsep) as Hsplit.
  destruct (decide (length (Py.split_on sep line) = 5)) as [Hlen|Hlen].
  - destruct (length_five _ Hlen) as (a & b & c & d & e & Hfields).
    rewrite Hfields in Hsplit.
    rewrite (from_line_five lang _ _ _ _ _ _ _ Hsplit).
    split; [|done]. intros H. by apply init_not_assertion in H.
  - unfold from_line. rewrite Hsplit. cbn [bind].
    rewrite bool_decide_eq_false_2 by done. done.
Qed.

(** ** Formatting the tags *)

Lemma elem_of_GENDER_NUMBER (tag : string) :
  tag ∈ GENDER_NUMBER ↔ tag ∈ ["f"; "m"; "nt"; "pl"].
Proof. unfold GENDER_NUMBER. by rewrite elem_of_list_to_set. Qed.

(** C7: formatting the tags raises [WordError] exactly for an entry that has
    a gender or number tag ([f], [m], [nt], [pl]) and not the noun tag, and
    returns a text for every other entry. *)
Theorem format_tags_outcome (self : Word) :
  let violates :=
    (∃ tag : string, tag ∈ tags self ∧ tag ∈ ["f"; "m"; "nt"; "pl"])
    ∧ "n" ∉ tags self in
  (is_WordError (format_tags self) ↔ violates)
  ∧ (succeeds (format_tags self) ↔ ¬ violates).
Proof.
  intros violates. unfold format_tags.
  case_bool_decide as Hany.
  - apply Exists_exists in Hany as (tag & Hin & Hgn).
    apply elem_of_GENDER_NUMBER in Hgn.
    case_bool_decide as Hn; cbn [is_WordError succeeds].
    + assert violates as Hv by (split; eauto).
      split; (split; [done|]); [done|]. intros H. by apply H.
    + assert (¬ violates) as Hv by (intros [_ H]; by apply H).
      split; (split; [done|]); done.
  - cbn [is_WordError succeeds].
    assert (¬ violates) as Hv.
    { intros [(tag & Hin & Hgn) _]. apply Hany, Exists_exists.
      exists tag. by rewrite elem_of_GENDER_NUMBER. }
    split; (split; [done|]); done.
Qed.

(** The fields of an entry parsed from a line of five fields: the meanings
    are stored as the loop left them, [None] for an empty field; examples
    and notes get the empty list in its place. *)
Lemma from_line_fields (lang line sep word_field v1 v2 v3 tags_field : string) (w : Word) :
  Py.split line sep = Return [word_field; v1; v2; v3; tags_field] →
  from_line lang line sep = Return w →
  meanings w = parse_value v1
  ∧ examples w = default [] (parse_value v2)
  ∧ other w = default [] (parse_value v3)
  ∧ tags w = validate_tags (process_tags (Py.strip tags_field)).
Proof.
  intros Hsplit. rewrite (from_line_five lang _ _ _ _ _ _ _ Hsplit), init_outcome.
  case_bool_decide; [|done].
  destruct (ARTICLES !! Py.lower lang); [|done].
  by intros [= <-].
Qed.

Lemma parse_value_empty (value : string) :
  Py.strip value = "" → parse_value value = None.
Proof. intros H. unfold parse_value. by rewrite H. Qed.

(** ** Merging *)

Lemma eq_true_iff (self other : Word) :
  __eq__ self other = true
  ↔ language self = language other ∧ word self = word other ∧ tags self = tags other.
Proof.
  unfold __eq__. rewrite !andb_true_iff, !bool_decide_eq_true.
  split; [intros [[? ?] ?]|intros (? & ? & ?)]; done.
Qed.

(** C9: when two entries differ in language, headword or tags, merging the
    second into the first leaves the first as it was, every field of it. *)
Theorem merge_unequal_unchanged (e e2 : Word) :
  language e ≠ language e2 ∨ word e ≠ word e2 ∨ tags e ≠ tags e2 →
  merge e e2 = Return e.
Proof.
  intros Hdiff. unfold merge.
  destruct (__eq__ e e2) eqn:Heq; [|reflexivity].
  apply eq_true_iff in Heq as (Hl & Hw & Ht).
  by destruct Hdiff as [H|[H|H]].
Qed.

(** ** Tags *)

Lemma elem_of_WORD_TAGS (tag : string) :
  tag ∈ WORD_TAGS
  ↔ tag ∈ ["adj"; "adv"; "conj"; "expr"; "n"; "pron"; "prep"; "f"; "m"; "nt"; "pl"; "v"].
Proof. unfold WORD_TAGS. by rewrite elem_of_list_to_set. Qed.

Lemma validate_tags_elem (raw_tags : list string) (tag : string) :
  tag ∈ validate_tags raw_tags ↔ tag ∈ raw_tags ∧ tag ∈ WORD_TAGS.
Proof. unfold validate_tags. rewrite list_elem_of_filter.
  split; intros [? ?]; done.
Qed.

(** A list without repetition whose only value is [a] is [[a]]. *)
Lemma NoDup_only (l : list string) (a : string) :
  NoDup l → (∀ x : string, x ∈ l ↔ x = a) → l = [a].
Proof.
  intros Hnd Hl. destruct l as [|x l].
  - exfalso. apply (not_elem_of_nil a), Hl. reflexivity.
  - assert (x = a) as -> by (apply Hl; left).
    apply NoDup_cons in Hnd as [Hnot _]. destruct l as [|y l]; [done|].
    assert (y = a) as -> by (apply Hl; right; left).
    exfalso. apply Hnot. left.
Qed.

Section SetListing.

Hypothesis list_of_set_elem :
  ∀ (s : gset string) (x : string), x ∈ list_of_set s ↔ x ∈ s.
Hypothesis list_of_set_NoDup : ∀ s : gset string, NoDup (list_of_set s).

Lemma process_tags_fold (pieces : list string) (acc : gset string) (x : string) :
  x ∈ foldl (λ (final_tags : gset string) tag,
               if bool_decide (tag ≠ "")
               then final_tags ∪ list_to_set (Py.split_on "." tag)
               else final_tags) acc pieces
  ↔ x ∈ acc ∨ ∃ tag : string, tag ∈ pieces ∧ tag ≠ "" ∧ x ∈ Py.split_on "." tag.
Proof.
  revert acc. induction pieces as [|piece pieces IH]; intros acc; cbn [foldl].
  - split; [by left|]. intros [H|(tag & H & _)]; [done|]. by apply not_elem_of_nil in H.
  - rewrite IH. case_bool_decide as Hpiece.
    + rewrite elem_of_union, elem_of_list_to_set. split.
      * intros [[H|H]|(tag & Hin & Hne & Hx)]; [by left| |].
        -- right. exists piece. split; [left|done].
        -- right. exists tag. split; [by right|done].
      * intros [H|(tag & Hin & Hne & Hx)]; [by left; left|].
        apply elem_of_cons in Hin as [-> | Hin]; [by left; right|].
        right. by exists tag.
    + split.
      * intros [H|(tag & Hin & Hne & Hx)]; [by left|].
        right. exists tag. split; [by right|done].
      * intros [H|(tag & Hin & Hne & Hx)]; [by left|].
        apply elem_of_cons in Hin as [-> | Hin]; [by destruct Hne|].
        right. by exists tag.
Qed.

(** The tags [process_tags] returns: the dot-separated pieces of the
    non-empty space-separated pieces of the text, each once. *)
Lemma process_tags_elem (text x : string) :
  x ∈ process_tags text
  ↔ ∃ tag : string, tag ∈ Py.split_on " " text ∧ tag ≠ "" ∧ x ∈ Py.split_on "." tag.
Proof using list_of_set_elem.
  unfold process_tags. rewrite list_of_set_elem, process_tags_fold.
  split; [|by right]. intros [H|H]; [|done]. by apply not_elem_of_empty in H.
Qed.

Lemma process_tags_NoDup (text : string) : NoDup (process_tags text).
Proof using list_of_set_NoDup. apply list_of_set_NoDup. Qed.

Lemma process_tags_n_xyz (x : string) :
  x ∈ process_tags "n xyz" ↔ x = "n" ∨ x = "xyz".
Proof using list_of_set_elem.
  rewrite process_tags_elem.
  change (Py.split_on " " "n xyz") with ["n"; "xyz"].
  split.
  - intros (tag & Hin & _ & Hx).
    apply elem_of_cons in Hin as [-> | Hin].
    + left. by apply list_elem_of_singleton in Hx.
    + apply list_elem_of_singleton in Hin as ->.
      right. by apply list_elem_of_singleton in Hx.
  - intros [-> | ->].
    + exists "n". split; [left|]. split; [done|left].
    + exists "xyz". split; [right; left|]. split; [done|left].
Qed.

Lemma validate_process_n_xyz : validate_tags (process_tags "n xyz") = ["n"].
Proof using list_of_set_elem list_of_set_NoDup.
  apply NoDup_only.
  - apply NoDup_filter, process_tags_NoDup.
  - intros x. rewrite validate_tags_elem, process_tags_n_xyz, elem_of_WORD_TAGS.
    split.
    + intros [[-> | ->] Hvoc]; [done|].
      exfalso. revert Hvoc. compute_done.
    + intros ->. split; [by left|]. compute_done.
Qed.

Lemma from_line_is_init (lang line sep : string) (w : Word) :
  from_line lang line sep = Return w →
  ∃ (raw : string) (raw_tags : list string)
    (raw_meanings raw_examples raw_other : option (list string)),
    __init__ lang raw raw_tags raw_meanings raw_examples raw_other (Some sep) = Return w.
Proof.
  unfold from_line. destruct (Py.split line sep) as [fields|]; [|done].
  cbn [bind]. case_bool_decide as Hlen; [|done].
  destruct (length_five _ Hlen) as (a & b & c & d & e & ->).
  cbn. eauto 10.
Qed.

(** C8: the tags of a constructed entry are those of the given tags that
    belong to the vocabulary, so they all belong to it, for an entry built
    from values and for one parsed from a line; the tags given never make
    construction fail; and the tag text [n xyz] gives the tags [[n]]. *)
Theorem tags_within_vocabulary :
  (∀ (lang raw : string) (raw_tags : list string)
     (raw_meanings raw_examples raw_other : option (list string))
     (raw_sep : option string),
     match __init__ lang raw raw_tags raw_meanings raw_examples raw_other raw_sep with
     | Return w => ∀ tag : string, tag ∈ tags w ↔ tag ∈ raw_tags ∧ tag ∈ WORD_TAGS
     | Raise err =>
         ∀ other_tags : list string,
           __init__ lang raw other_tags raw_meanings raw_examples raw_other raw_sep
           = Raise err
     end)
  ∧ (∀ (lang line sep : string) (w : Word),
       from_line lang line sep = Return w →
       ∀ tag : string, tag ∈ tags w → tag ∈ WORD_TAGS)
  ∧ validate_tags (process_tags "n xyz") = ["n"]
  ∧ (∀ (lang line sep word_field v1 v2 v3 tags_field : string) (w : Word),
       Py.split line sep = Return [word_field; v1; v2; v3; tags_field] →
       Py.strip tags_field = "n xyz" →
       from_line lang line sep = Return w →
       tags w = ["n"]).
Proof using list_of_set_elem list_of_set_NoDup.
  split; [|split; [|split]].
  - intros. rewrite init_outcome. case_bool_decide.
    + destruct (ARTICLES !! Py.lower lang) eqn:Harts.
      * intros tag. cbn [tags]. apply validate_tags_elem.
      * intros other_tags. rewrite init_outcome, bool_decide_eq_true_2 by done.
        by rewrite Harts.
    + intros other_tags. by rewrite init_outcome, bool_decide_eq_false_2.
  - intros lang line sep w Hw tag Htag.
    apply from_line_is_init in Hw as (raw & raw_tags & m & e & o & Hw).
    rewrite init_outcome in Hw. case_bool_decide; [|done].
    destruct (ARTICLES !! Py.lower lang); [|done].
    injection Hw as <-. cbn [tags] in Htag.
    by apply validate_tags_elem in Htag as [_ ?].
  - apply validate_process_n_xyz.
  - intros lang line sep word_field v1 v2 v3 tags_field w Hsplit Htags Hw.
    destruct (from_line_fields _ _ _ _ _ _ _ _ _ Hsplit Hw) as (_ & _ & _ & ->).
    rewrite Htags. apply validate_process_n_xyz.
Qed.

End SetListing.

End WordClass.

(** ** The class on the tables of the specification *)

Definition de_init := __init__ spec_SUPPORTED_LANGUAGES spec_ARTICLES.

Definition de_from_line :=
  from_line spec_SUPPORTED_LANGUAGES spec_ARTICLES (elements : gset string → list string).

Definition de_sortable_word := get_sortable_word spec_replace_odd_characters.

Definition de_initial := get_initial spec_replace_odd_characters.

Definition de_articles : list string := ["der"; "die"; "das"].

(** [Word("de", "die Schule", ["n"], ["school"])] *)
Definition die_Schule : Word :=
  mkWord "de" de_articles ["n"] "die Schule" (Some ["school"]) [] [] tab.

(** [Word("de", "Haus", ["n"], ["house"], None, ["see also"])] *)
Definition Haus : Word :=
  mkWord "de" de_articles ["n"] "Haus" (Some ["house"]) [] ["see also"] tab.

(** The line [Haus], four tabs, [n]: every field between headword and tags
    is empty. *)
Definition line_Haus_bare : string :=
  "Haus" +:+ tab +:+ tab +:+ tab +:+ tab +:+ "n".

(** The same line with the tags [n xyz]. *)
Definition line_unknown_tag : string :=
  "Haus" +:+ tab +:+ tab +:+ tab +:+ tab +:+ "n xyz".

(** The entry both lines parse to. *)
Definition Haus_bare : Word :=
  mkWord "de" de_articles ["n"] "Haus" None [] [] tab.

(** A line of three fields under the tab separator. *)
Definition line_three_fields : string := "Haus" +:+ tab +:+ "house" +:+ tab +:+ "n".

(** The two example entries are what the constructor builds. *)
Lemma die_Schule_constructed :
  de_init "de" "die Schule" ["n"] (Some ["school"]) None None None = Return die_Schule.
Proof. vm_compute. reflexivity. Qed.

Lemma Haus_constructed :
  de_init "de" "Haus" ["n"] (Some ["house"]) None (Some ["see also"]) None = Return Haus.
Proof. vm_compute. reflexivity. Qed.

(** C1 (the code at the failing input): the entry [Haus] has one note.  Its
    line carries the text of the list of notes, not the notes joined by the
    marker; parsing the line gives an entry equal to [Haus] under [__eq__]
    whose notes are the one string [['see also']], which is not set-equal to
    the notes of [Haus]. *)
Theorem roundtrip_notes_Haus :
  __str__ Haus
    = Return ("Haus " +:+ tab +:+ " house " +:+ tab +:+ " " +:+ tab
              +:+ " ['see also'] " +:+ tab +:+ " n" +:+ newline)
  ∧ ∃ line parsed,
      __str__ Haus = Return line
      ∧ de_from_line "de" line (sep Haus) = Return parsed
      ∧ __eq__ Haus parsed = true
      ∧ other Haus = ["see also"]
      ∧ other parsed = ["['see also']"]
      ∧ ¬ set_equal (other parsed) (other Haus).
Proof.
  split; [vm_compute; reflexivity|].
  eexists _, _. split; [vm_compute; reflexivity|].
  split; [vm_compute; reflexivity|].
  split; [vm_compute; reflexivity|].
  split; [reflexivity|]. split; [reflexivity|].
  intros Hset. specialize (Hset "see also").
  assert ("see also" ∈ ["['see also']"]) as Hin by (apply Hset; left).
  apply list_elem_of_singleton in Hin. discriminate Hin.
Qed.

(** C2 (the code at the failing input): for the German noun [die Schule]
    the key returned is the letters of [Schule] joined by spaces; it does
    not begin with [Schule], the key the specification describes; the
    initial is [S]. *)
Theorem sortable_word_die_Schule :
  de_sortable_word die_Schule = Return "S c h u l e"
  ∧ sortable_word_spec spec_replace_odd_characters die_Schule = Return "Schule"
  ∧ String.prefix "Schule" "S c h u l e" = false
  ∧ de_initial die_Schule = Return "S".
Proof. repeat split; vm_compute; reflexivity. Qed.

(** C3 (the code at the failing input): for the German noun [die schule]
    the stored headword is [die schule], the parts as they were given,
    where the specification describes [die Schule]. *)
Theorem standardize_word_die_schule :
  standardize_word "de" de_articles ["n"] "die schule" = "die schule"
  ∧ noun_headword_spec de_articles "die schule" = "die Schule"
  ∧ ∃ w, de_init "de" "die schule" ["n"] (Some ["school"]) None None None = Return w
         ∧ word w = "die schule".
Proof.
  split; [vm_compute; reflexivity|]. split; [vm_compute; reflexivity|].
  eexists. split; vm_compute; reflexivity.
Qed.

(** C4 (the code at the failing input): on a line whose meanings, examples
    and notes are all empty, the entry gets the empty list for examples and
    for notes, and [None] for the meanings, on which formatting raises. *)
Theorem from_line_empty_meanings :
  de_from_line "de" line_Haus_bare tab = Return Haus_bare
  ∧ meanings Haus_bare = None
  ∧ examples Haus_bare = []
  ∧ other Haus_bare = []
  ∧ format_meanings Haus_bare = Raise TypeError
  ∧ __str__ Haus_bare = Raise TypeError.
Proof. repeat split; vm_compute; reflexivity. Qed.

(** C5 (counterexample): the headword of three spaces is empty once trimmed,
    and the entry is built, with the empty string for headword. *)
Lemma empty_headword_is_stored :
  Py.strip "   " = ""
  ∧ ∃ w, de_init "de" "   " ["n"] (Some ["x"]) None None None = Return w
         ∧ word w = "".
Proof. split; [reflexivity|]. eexists. split; vm_compute; reflexivity. Qed.

Lemma init_stores_empty_headword_witness :
  Py.strip "   " = ""
  ∧ Py.lower "DE" ∈ spec_SUPPORTED_LANGUAGES
  ∧ spec_ARTICLES !! Py.lower "DE" = Some de_articles
  ∧ ∃ w, de_init "DE" "   " ["n"] (Some ["x"]) None None None = Return w
         ∧ word w = "".
Proof.
  assert (Py.lower "DE" ∈ spec_SUPPORTED_LANGUAGES) as Hlang by apply list_elem_of_here.
  assert (spec_ARTICLES !! Py.lower "DE" = Some de_articles) as Harts
    by (vm_compute; reflexivity).
  split; [reflexivity|]. split; [exact Hlang|]. split; [exact Harts|].
  exact (init_stores_empty_headword spec_SUPPORTED_LANGUAGES spec_ARTICLES
           "DE" "   " ["n"] (Some ["x"]) None None None de_articles
           eq_refl Hlang Harts).
Defined.

Lemma from_line_field_count_witness :
  tab ≠ ""
  ∧ length (Py.split_on tab line_three_fields) = 3
  ∧ (is_AssertionError (de_from_line "de" line_three_fields tab)
     ↔ length (Py.split_on tab line_three_fields) ≠ 5)
  ∧ is_AssertionError (de_from_line "de" line_three_fields tab).
Proof.
  assert (tab ≠ "") as Htab by discriminate.
  pose proof (from_line_field_count spec_SUPPORTED_LANGUAGES spec_ARTICLES
                elements "de" line_three_fields tab Htab) as Hcount.
  split; [exact Htab|]. split; [reflexivity|]. split; [exact Hcount|].
  apply Hcount. vm_compute. discriminate.
Defined.

Lemma tags_within_vocabulary_witness :
  (∀ (s : gset string) (x : string), x ∈ elements s ↔ x ∈ s)
  ∧ (∀ s : gset string, NoDup (elements s))
  ∧ validate_tags (process_tags elements "n xyz") = ["n"]
  ∧ de_from_line "de" line_unknown_tag tab = Return Haus_bare
  ∧ tags Haus_bare = ["n"].
Proof.
  pose proof (tags_within_vocabulary spec_SUPPORTED_LANGUAGES spec_ARTICLES elements
                (λ s x, elem_of_elements s x) (λ s, NoDup_elements s)) as Hvoc.
  assert (de_from_line "de" line_unknown_tag tab = Return Haus_bare) as Hparsed
    by (vm_compute; reflexivity).
  split; [exact (λ s x, elem_of_elements s x)|].
  split; [exact (λ s, NoDup_elements s)|].
  split; [exact (proj1 (proj2 (proj2 Hvoc)))|].
  split; [exact Hparsed|].
  exact (proj2 (proj2 (proj2 Hvoc)) "de" line_unknown_tag tab
           "Haus" EmptyString EmptyString EmptyString "n xyz" Haus_bare
           eq_refl eq_refl Hparsed).
Defined.

Lemma merge_unequal_unchanged_witness :
  (language Haus ≠ language die_Schule ∨ word Haus ≠ word die_Schule
   ∨ tags Haus ≠ tags die_Schule)
  ∧ merge Haus die_Schule = Return Haus.
Proof.
  assert (language Haus ≠ language die_Schule ∨ word Haus ≠ word die_Schule
          ∨ tags Haus ≠ tags die_Schule) as Hdiff by (right; left; discriminate).
  split; [exact Hdiff|]. exact (merge_unequal_unchanged Haus die_Schule Hdiff).
Defined.

(** * Further behaviour of the class *)

(** ** More facts about the string built-ins *)

Lemma lstrip_idempotent (s : string) : Py.lstrip (Py.lstrip s) = Py.lstrip s.
Proof.
  induction s as [|c s IH]; [reflexivity|]. cbn [Py.lstrip].
  destruct (Py.isspace c) eqn:Hc; [exact IH|].
  cbn [Py.lstrip]. by rewrite Hc.
Qed.

Lemma rstrip_idempotent (s : string) : Py.rstrip (Py.rstrip s) = Py.rstrip s.
Proof.
  induction s as [|c s IH]; [reflexivity|]. cbn [Py.rstrip].
  destruct (Py.rstrip s) as [|d r] eqn:Hr.
  - destruct (Py.isspace c) eqn:Hc; [reflexivity|].
    cbn [Py.rstrip]. by rewrite Hc.
  - cbn [Py.rstrip] in *. by rewrite IH.
Qed.

(** What [lstrip] returns is empty or begins with a character that is no
    white space. *)
Lemma lstrip_head (s : string) :
  match Py.lstrip s with
  | EmptyString => True
  | String c _ => Py.isspace c = false
  end.
Proof.
  induction s as [|c s IH]; [done|]. cbn [Py.lstrip].
  by destruct (Py.isspace c) eqn:Hc.
Qed.

Lemma rstrip_keeps_head (c : ascii) (s : string) :
  Py.isspace c = false → ∃ r, Py.rstrip (String c s) = String c r.
Proof.
  intros Hc. cbn [Py.rstrip]. destruct (Py.rstrip s); [|by eexists].
  rewrite Hc. by eexists.
Qed.

Lemma strip_head (s : string) :
  match Py.strip s with
  | EmptyString => True
  | String c _ => Py.isspace c = false
  end.
Proof.
  unfold Py.strip. pose proof (lstrip_head s) as Hhead.
  destruct (Py.lstrip s) as [|c t]; [done|].
  destruct (rstrip_keeps_head c t Hhead) as [r ->]. done.
Qed.

(** Trimming a trimmed text changes nothing. *)
Lemma strip_idempotent (s : string) : Py.strip (Py.strip s) = Py.strip s.
Proof.
  pose proof (strip_head s) as Hhead. unfold Py.strip in *.
  destruct (Py.rstrip (Py.lstrip s)) as [|c r] eqn:Hr; [reflexivity|].
  cbn [Py.lstrip]. rewrite Hhead, <- Hr. apply rstrip_idempotent.
Qed.

Lemma isspace_lower_char (c : ascii) : Py.isspace (Py.lower_char c) = Py.isspace c.
Proof. destruct c as [[] [] [] [] [] [] [] []]; reflexivity. Qed.

Lemma lstrip_lower (s : string) : Py.lstrip (Py.lower s) = Py.lower (Py.lstrip s).
Proof.
  induction s as [|c s IH]; [reflexivity|]. cbn [Py.lower Py.lstrip].
  rewrite isspace_lower_char. by destruct (Py.isspace c).
Qed.

Lemma rstrip_lower (s : string) : Py.rstrip (Py.lower s) = Py.lower (Py.rstrip s).
Proof.
  induction s as [|c s IH]; [reflexivity|]. cbn [Py.lower Py.rstrip].
  rewrite IH, isspace_lower_char.
  destruct (Py.rstrip s); cbn [Py.lower]; [|reflexivity].
  by destruct (Py.isspace c).
Qed.

(** Lower case and trimming can be taken in either order. *)
Lemma strip_lower (s : string) : Py.strip (Py.lower s) = Py.lower (Py.strip s).
Proof. unfold Py.strip. by rewrite lstrip_lower, rstrip_lower. Qed.

(** ** The stored headword is a fixed point of the normalisation *)

Lemma standardize_word_fixed
    (self_language : string) (articles self_tags : list string) (raw : string) :
  standardize_word self_language articles self_tags
    (standardize_word self_language articles self_tags raw)
  = standardize_word self_language articles self_tags raw.
Proof.
  destruct (decide (self_language = "de")) as [->|Hlang].
  - destruct (decide ("n" ∈ self_tags)) as [Hn|Hn].
    + rewrite !standardize_word_noun by done. apply strip_idempotent.
    + unfold standardize_word.
      rewrite !bool_decide_eq_false_2 by (try done; intros H; by apply H).
      case_bool_decide.
      * by rewrite strip_lower, lower_idempotent, strip_idempotent.
      * apply strip_idempotent.
  - unfold standardize_word. rewrite !bool_decide_eq_true_2 by done.
    by rewrite strip_lower, lower_idempotent, strip_idempotent.
Qed.

(** X1: normalising a headword that was already normalised, for the same
    language, articles and tags, gives the same headword. *)
Theorem standardize_word_idempotent
    (self_language : string) (articles self_tags : list string) (raw : string) :
  standardize_word self_language articles self_tags
    (standardize_word self_language articles self_tags raw)
  = standardize_word self_language articles self_tags raw.
Proof. exact (standardize_word_fixed self_language articles self_tags raw). Qed.

Lemma string_app_assoc (s1 s2 s3 : string) :
  (s1 +:+ s2) +:+ s3 = s1 +:+ s2 +:+ s3.
Proof.
  induction s1 as [|c s1 IH]; [reflexivity|].
  change (String c ((s1 +:+ s2) +:+ s3) = String c (s1 +:+ s2 +:+ s3)).
  by rewrite IH.
Qed.

Lemma ends_with_newline (printable_string formatted_tags : string) :
  ∃ body : string,
    printable_string +:+ " " +:+ formatted_tags +:+ newline = body +:+ newline.
Proof.
  exists (printable_string +:+ " " +:+ formatted_tags).
  rewrite (string_app_assoc printable_string).
  by rewrite (string_app_assoc " " formatted_tags newline).
Qed.

Lemma validate_tags_idempotent (raw_tags : list string) :
  validate_tags (validate_tags raw_tags) = validate_tags raw_tags.
Proof.
  unfold validate_tags. induction raw_tags as [|tag raw_tags IH]; [reflexivity|].
  rewrite filter_cons. case_decide as Htag; [|exact IH].
  rewrite filter_cons. rewrite decide_True by done. by rewrite IH.
Qed.

Section Behaviour.

#[local] Set Default Proof Using "Type".

Variable SUPPORTED_LANGUAGES : list string.
Variable ARTICLES : gmap string (list string).
Variable replace_odd_characters : string → string.
Variable list_of_set : gset string → list string.

(** ** Constructing again from an entry's own fields *)

(** X2: an entry that the constructor built is reproduced by the
    constructor from the entry's own fields: the language code, the tags
    and the headword it stores are already in the form it gives them. *)
Theorem init_of_own_fields
    (lang raw : string) (raw_tags : list string)
    (raw_meanings raw_examples raw_other : option (list string))
    (raw_sep : option string) (w : Word) :
  __init__ SUPPORTED_LANGUAGES ARTICLES lang raw raw_tags
    raw_meanings raw_examples raw_other raw_sep = Return w →
  __init__ SUPPORTED_LANGUAGES ARTICLES (language w) (word w) (tags w)
    (meanings w) (Some (examples w)) (Some (other w)) (Some (sep w)) = Return w.
Proof.
  rewrite !init_outcome. case_bool_decide as Hlang; [|done].
  destruct (ARTICLES !! Py.lower lang) as [articles|] eqn:Harts; [|done].
  intros [= <-]. cbn [language word tags meanings examples other sep default].
  rewrite lower_idempotent, bool_decide_eq_true_2, Harts by done.
  by rewrite validate_tags_idempotent, standardize_word_fixed.
Qed.

(** ** What parsing and serialising can raise *)

Lemma from_line_cases (lang line field_sep : string) :
  match from_line SUPPORTED_LANGUAGES ARTICLES list_of_set lang line field_sep with
  | Return w =>
      field_sep ≠ "" ∧ length (Py.split_on field_sep line) = 5
      ∧ language w = Py.lower lang
      ∧ Py.lower lang ∈ SUPPORTED_LANGUAGES
      ∧ ARTICLES !! Py.lower lang = Some (self_ARTICLES w)
      ∧ sep w = field_sep
  | Raise (ValueError _) => field_sep = ""
  | Raise (AssertionError _) => field_sep ≠ "" ∧ length (Py.split_on field_sep line) ≠ 5
  | Raise (WordError _) =>
      field_sep ≠ "" ∧ length (Py.split_on field_sep line) = 5
      ∧ Py.lower lang ∉ SUPPORTED_LANGUAGES
  | Raise (KeyError key) =>
      field_sep ≠ "" ∧ length (Py.split_on field_sep line) = 5
      ∧ Py.lower lang ∈ SUPPORTED_LANGUAGES
      ∧ key = Py.lower lang ∧ ARTICLES !! key = None
  | Raise TypeError | Raise IndexError => False
  end.
Proof.
  destruct (decide (field_sep = "")) as [->|Hsep]; [done|].
  pose proof (split_nonempty_sep line field_sep Hsep) as Hsplit.
  destruct (decide (length (Py.split_on field_sep line) = 5)) as [Hlen|Hlen].
  - destruct (length_five _ Hlen) as (a & b & c & d & e & Hfields).
    rewrite Hfields in Hsplit.
    rewrite (from_line_five _ _ _ lang _ _ _ _ _ _ _ Hsplit), init_outcome.
    case_bool_decide; [|done].
    by destruct (ARTICLES !! Py.lower lang) eqn:Harts.
  - unfold from_line. rewrite Hsplit. cbn [bind].
    by rewrite bool_decide_eq_false_2.
Qed.

(** X3: the outcomes of [from_line], in the order the checks are made: an
    empty separator is refused by [split]; then the count of fields is
    asserted; then the language must be supported; then it must have an
    article list.  When the four hold the line is parsed: the fields
    themselves are never a cause of failure. *)
Theorem from_line_outcome (lang line field_sep : string) :
  match from_line SUPPORTED_LANGUAGES ARTICLES list_of_set lang line field_sep with
  | Return w =>
      field_sep ≠ "" ∧ length (Py.split_on field_sep line) = 5
      ∧ language w = Py.lower lang
      ∧ Py.lower lang ∈ SUPPORTED_LANGUAGES
      ∧ ARTICLES !! Py.lower lang = Some (self_ARTICLES w)
      ∧ sep w = field_sep
  | Raise (ValueError _) => field_sep = ""
  | Raise (AssertionError _) => field_sep ≠ "" ∧ length (Py.split_on field_sep line) ≠ 5
  | Raise (WordError _) =>
      field_sep ≠ "" ∧ length (Py.split_on field_sep line) = 5
      ∧ Py.lower lang ∉ SUPPORTED_LANGUAGES
  | Raise (KeyError key) =>
      field_sep ≠ "" ∧ length (Py.split_on field_sep line) = 5
      ∧ Py.lower lang ∈ SUPPORTED_LANGUAGES
      ∧ key = Py.lower lang ∧ ARTICLES !! key = None
  | Raise TypeError | Raise IndexError => False
  end.
Proof. exact (from_line_cases lang line field_sep). Qed.

Lemma format_tags_cases (self : Word) :
  let violates :=
    (∃ tag : string, tag ∈ tags self ∧ tag ∈ ["f"; "m"; "nt"; "pl"])
    ∧ "n" ∉ tags self in
  match format_tags self with
  | Return _ => ¬ violates
  | Raise (WordError _) => violates
  | Raise _ => False
  end.
Proof.
  intros violates. unfold format_tags. case_bool_decide as Hany.
  - apply Exists_exists in Hany as (tag & Hin & Hgn).
    apply elem_of_GENDER_NUMBER in Hgn.
    case_bool_decide as Hn; [by split; eauto|]. by intros [_ ?].
  - intros [(tag & Hin & Hgn) _]. apply Hany, Exists_exists.
    exists tag. by rewrite elem_of_GENDER_NUMBER.
Qed.

(** X4: the outcomes of [__str__]: [TypeError] when the meanings are
    [None], whatever the tags; otherwise [WordError] when a gender or number
    tag comes without the noun tag; otherwise a line, which ends with a line
    feed. *)
Theorem str_outcome (self : Word) :
  let violates :=
    (∃ tag : string, tag ∈ tags self ∧ tag ∈ ["f"; "m"; "nt"; "pl"])
    ∧ "n" ∉ tags self in
  match __str__ self with
  | Return line =>
      meanings self ≠ None ∧ ¬ violates ∧ ∃ body, line = body +:+ newline
  | Raise TypeError => meanings self = None
  | Raise (WordError _) => meanings self ≠ None ∧ violates
  | Raise _ => False
  end.
Proof.
  intros violates. pose proof (format_tags_cases self) as Hcases.
  fold violates in Hcases. unfold __str__, format_meanings.
  destruct (meanings self) as [l|]; [|done]. cbn [bind].
  destruct (format_tags self) as [t|[]]; cbn [bind]; try done.
  split; [done|]. split; [done|]. cbv zeta. apply ends_with_newline.
Qed.

(** ** Appending to a list attribute *)

(** The instance with the list of one attribute replaced. *)
Definition set_attr (self : Word) (a : attr) (l : list string) : Word :=
  match a with
  | attr_meanings =>
      mkWord (language self) (self_ARTICLES self) (tags self) (word self)
        (Some l) (examples self) (other self) (sep self)
  | attr_examples =>
      mkWord (language self) (self_ARTICLES self) (tags self) (word self)
        (meanings self) l (other self) (sep self)
  | attr_other =>
      mkWord (language self) (self_ARTICLES self) (tags self) (word self)
        (meanings self) (examples self) l (sep self)
  end.

(** What a run of the loop of [append_to_attr] over [pieces] adds to a list
    that holds [present]: each piece, trimmed, that is not empty and not in
    the list by then, in the order met. *)
Fixpoint fresh (present pieces : list string) : list string :=
  match pieces with
  | [] => []
  | piece :: pieces' =>
      let new := Py.strip piece in
      (if bool_decide (new = "") then fresh present pieces'
       else if bool_decide (new ∉ present)
            then new :: fresh (present ++ [new]) pieces'
            else fresh present pieces')
  end.

Lemma fresh_elem (present pieces : list string) (x : string) :
  x ∈ fresh present pieces
  ↔ (x ∉ present) ∧ x ≠ "" ∧ x ∈ (Py.strip <$> pieces).
Proof.
  revert present. induction pieces as [|piece pieces IH]; intros present.
  - cbn. split; [by intros ?%not_elem_of_nil|by intros (_ & _ & ?%not_elem_of_nil)].
  - cbn [fresh]. rewrite fmap_cons, (elem_of_cons _ x (Py.strip piece)).
    case_bool_decide as Hblank.
    + rewrite IH. split; [by intros (? & ? & ?); auto|].
      intros (? & ? & [->|?]); done.
    + case_bool_decide as Hnew.
      * rewrite elem_of_cons, IH, elem_of_app, list_elem_of_singleton. split.
        -- intros [->|(Hx & ? & ?)]; [by auto|]. split; [|by auto].
           intros ?. apply Hx. by left.
        -- intros (Hx & ? & [->|?]); [by left|].
           destruct (decide (x = Py.strip piece)) as [->|Hne]; [by left|].
           right. split; [|done]. by intros [?|?].
      * rewrite IH. split; [by intros (? & ? & ?); auto|].
        intros (? & ? & [->|?]); done.
Qed.

Lemma fresh_NoDup (present pieces : list string) : NoDup (fresh present pieces).
Proof.
  revert present. induction pieces as [|piece pieces IH]; intros present.
  - constructor.
  - cbn [fresh]. repeat case_bool_decide; try apply IH.
    constructor; [|apply IH]. rewrite fresh_elem. intros (Hx & _).
    apply Hx, elem_of_app. right. left.
Qed.

Lemma fresh_app (present pieces1 pieces2 : list string) :
  fresh present (pieces1 ++ pieces2)
  = fresh present pieces1 ++ fresh (present ++ fresh present pieces1) pieces2.
Proof.
  revert present. induction pieces1 as [|piece pieces1 IH]; intros present.
  - cbn. by rewrite app_nil_r.
  - cbn [fresh app]. repeat case_bool_decide; rewrite IH; [done| |done].
    cbn [app]. by rewrite <- app_assoc.
Qed.

Lemma fresh_nothing (present pieces : list string) :
  (∀ piece, piece ∈ pieces → Py.strip piece = "" ∨ Py.strip piece ∈ present) →
  fresh present pieces = [].
Proof.
  intros Hall. destruct (fresh present pieces) as [|x l] eqn:Hfresh; [done|].
  assert (x ∈ fresh present pieces) as Hx by (rewrite Hfresh; left).
  apply fresh_elem in Hx as (Hnot & Hne & (piece & -> & Hin)%list_elem_of_fmap).
  by destruct (Hall piece Hin).
Qed.

(** Running the loop again over the same pieces adds nothing. *)
Lemma fresh_again (present pieces : list string) :
  fresh (present ++ fresh present pieces) pieces = [].
Proof.
  apply fresh_nothing. intros piece Hin.
  destruct (decide (Py.strip piece = "")) as [|Hne]; [by left|]. right.
  rewrite elem_of_app, fresh_elem.
  destruct (decide (Py.strip piece ∈ present)); [by left|].
  right. split; [done|]. split; [done|]. apply list_elem_of_fmap. eauto.
Qed.

(** The attribute after the loop has run over [pieces]: a list grows by the
    fresh pieces; on [None] the first piece that is not blank raises. *)
Definition grown (o : option (list string)) (pieces : list string)
    : result (option (list string)) :=
  match o with
  | Some present => Return (Some (present ++ fresh present pieces))
  | None =>
      if bool_decide (Forall (λ piece, Py.strip piece = "") pieces)
      then Return None else Raise TypeError
  end.

Definition put (self : Word) (a : attr) (o : option (list string)) : Word :=
  match o with
  | Some l => set_attr self a l
  | None => self
  end.

#[local] Instance attr_eq_dec : EqDecision attr.
Proof. solve_decision. Defined.

Lemma getattr_set_attr (self : Word) (a b : attr) (l : list string) :
  getattr (set_attr self a l) b = if decide (a = b) then Some l else getattr self b.
Proof. by destruct a, b. Qed.

Lemma set_attr_set_attr (self : Word) (a : attr) (l1 l2 : list string) :
  set_attr (set_attr self a l1) a l2 = set_attr self a l2.
Proof. by destruct a. Qed.

Lemma set_attr_getattr (self : Word) (a : attr) (l : list string) :
  getattr self a = Some l → set_attr self a l = self.
Proof. destruct self, a; cbn; by intros [= ->]. Qed.

Lemma put_getattr (self : Word) (a : attr) : put self a (getattr self a) = self.
Proof.
  unfold put. destruct (getattr self a) eqn:Hget; [|done].
  by apply set_attr_getattr.
Qed.

Lemma append_attr_set (self : Word) (a : attr) (l : list string) (new : string) :
  getattr self a = Some l →
  append_attr self a new = Return (set_attr self a (l ++ [new])).
Proof. destruct a; cbn; by intros [= ->]. Qed.

(** The loop of [append_to_attr] over any pieces. *)
Lemma append_loop (a : attr) (pieces : list string) (self : Word) :
  for_each (append_new a) pieces self
  = let! o := grown (getattr self a) pieces in Return (put self a o).
Proof.
  revert self. induction pieces as [|piece pieces IH]; intros self.
  - cbn [for_each]. destruct (getattr self a) as [l|] eqn:Hget; cbn [grown fresh bind put].
    + rewrite app_nil_r. by rewrite set_attr_getattr.
    + by rewrite bool_decide_eq_true_2 by constructor.
  - cbn [for_each]. unfold append_new at 1.
    destruct (getattr self a) as [l|] eqn:Hget; cbn [grown fresh bind].
    + case_bool_decide as Hblank; cbn [bind].
      { rewrite IH, Hget. reflexivity. }
      case_bool_decide as Hnew; cbn [bind].
      * rewrite (append_attr_set _ _ _ _ Hget). cbn [bind].
        rewrite IH, getattr_set_attr, decide_True by done. cbn [grown bind put].
        by rewrite set_attr_set_attr, <- app_assoc.
      * rewrite IH, Hget. reflexivity.
    + case_bool_decide as Hblank; cbn [bind].
      * rewrite IH, Hget. cbn [grown].
        destruct (decide (Forall (λ p, Py.strip p = "") pieces)) as [Hall|Hall].
        -- by rewrite !bool_decide_eq_true_2 by (try constructor; done).
        -- rewrite !bool_decide_eq_false_2; [done| |done].
           by intros [_ ?]%Forall_cons.
      * rewrite bool_decide_eq_false_2; [done|]. by intros [? _]%Forall_cons.
Qed.

(** [append_to_attr] in one step. *)
Lemma append_to_attr_grown (self : Word) (a : attr) (new_value : string) :
  append_to_attr self a new_value
  = let! o := grown (getattr self a) (Py.split_on LINE_SEP new_value) in
    Return (put self a o).
Proof. apply append_loop. Qed.

(** The fields that make the identity of an entry, and the two it carries
    besides its lists. *)
Definition same_identity (self self' : Word) : Prop :=
  language self' = language self ∧ word self' = word self ∧ tags self' = tags self
  ∧ self_ARTICLES self' = self_ARTICLES self ∧ sep self' = sep self.

Lemma same_identity_put (self : Word) (a : attr) (o : option (list string)) :
  same_identity self (put self a o).
Proof. destruct o; [|done]. by destruct a. Qed.

Lemma getattr_put_other (self : Word) (a b : attr) (o : option (list string)) :
  b ≠ a → getattr (put self a o) b = getattr self b.
Proof.
  intros Hne. destruct o; [|done]. cbn [put].
  rewrite getattr_set_attr. by rewrite decide_False.
Qed.

Lemma append_to_attr_cases (self : Word) (a : attr) (new_value : string) :
  let pieces := Py.split_on LINE_SEP new_value in
  match append_to_attr self a new_value with
  | Return self' =>
      same_identity self self'
      ∧ (∀ b : attr, b ≠ a → getattr self' b = getattr self b)
      ∧ match getattr self a with
        | Some present =>
            ∃ added : list string,
              getattr self' a = Some (present ++ added)
              ∧ NoDup added
              ∧ ∀ x : string,
                  x ∈ added
                  ↔ (x ∉ present) ∧ x ≠ "" ∧ x ∈ (Py.strip <$> pieces)
        | None => self' = self ∧ Forall (λ piece, Py.strip piece = "") pieces
        end
  | Raise err =>
      err = TypeError ∧ getattr self a = None
      ∧ Exists (λ piece, Py.strip piece ≠ "") pieces
  end.
Proof.
  intros pieces. rewrite append_to_attr_grown. fold pieces.
  destruct (getattr self a) as [present|] eqn:Hget; cbn [grown bind].
  - split; [apply same_identity_put|]. split.
    { intros b Hb. by apply getattr_put_other. }
    exists (fresh present pieces). cbn [put].
    rewrite getattr_set_attr, decide_True by done.
    split; [done|]. split; [apply fresh_NoDup|]. apply fresh_elem.
  - case_bool_decide as Hblank; cbn [bind put]; [done|].
    split; [done|]. split; [done|]. by apply not_Forall_Exists in Hblank; [|apply _].
Qed.

(** X5: the contract of [append_to_attr].  It raises only [TypeError], and
    only when the attribute is [None] and some piece of the value is not
    blank.  Otherwise the identity of the entry and its other attributes are
    unchanged, and the list keeps what it held, in place, followed by the
    new elements: without repetition, the trimmed pieces of the value that
    are not empty and were not in the list. *)
Theorem append_to_attr_contract (self : Word) (a : attr) (new_value : string) :
  let pieces := Py.split_on LINE_SEP new_value in
  match append_to_attr self a new_value with
  | Return self' =>
      same_identity self self'
      ∧ (∀ b : attr, b ≠ a → getattr self' b = getattr self b)
      ∧ match getattr self a with
        | Some present =>
            ∃ added : list string,
              getattr self' a = Some (present ++ added)
              ∧ NoDup added
              ∧ ∀ x : string,
                  x ∈ added
                  ↔ (x ∉ present) ∧ x ≠ "" ∧ x ∈ (Py.strip <$> pieces)
        | None => self' = self ∧ Forall (λ piece, Py.strip piece = "") pieces
        end
  | Raise err =>
      err = TypeError ∧ getattr self a = None
      ∧ Exists (λ piece, Py.strip piece ≠ "") pieces
  end.
Proof. exact (append_to_attr_cases self a new_value). Qed.

(** X6: appending the same value a second time changes nothing: what
    [append_to_attr] returned is returned again when the call is repeated
    on it. *)
Theorem append_to_attr_idempotent (self self' : Word) (a : attr) (new_value : string) :
  append_to_attr self a new_value = Return self' →
  append_to_attr self' a new_value = Return self'.
Proof.
  rewrite !append_to_attr_grown.
  destruct (getattr self a) as [present|] eqn:Hget; cbn [grown bind].
  - intros [= <-]. cbn [put]. rewrite getattr_set_attr, decide_True by done.
    cbn [grown bind put]. by rewrite fresh_again, app_nil_r, set_attr_set_attr.
  - case_bool_decide as Hblank; cbn [bind put]; [|done].
    intros [= <-]. rewrite Hget. cbn [grown].
    by rewrite bool_decide_eq_true_2.
Qed.

(** X7: a list without repetition stays without repetition when a value is
    appended to it. *)
Theorem append_to_attr_NoDup
    (self self' : Word) (a : attr) (new_value : string) (present : list string) :
  getattr self a = Some present →
  NoDup present →
  append_to_attr self a new_value = Return self' →
  ∃ l : list string, getattr self' a = Some l ∧ NoDup l.
Proof.
  intros Hget Hnodup. rewrite append_to_attr_grown, Hget. cbn [grown bind put].
  intros [= <-]. eexists. rewrite getattr_set_attr, decide_True by done.
  split; [done|]. apply NoDup_app. split; [done|]. split; [|apply fresh_NoDup].
  intros x Hx Hfresh. by apply fresh_elem in Hfresh as [? _].
Qed.

(** ** Merging two equal entries *)

Lemma grown_blank (o : option (list string)) : grown o [""] = Return o.
Proof.
  destruct o as [l|]; cbn [grown].
  - by rewrite (fresh_nothing l [""]), app_nil_r by (intros ? ->%list_elem_of_singleton; by left).
  - rewrite bool_decide_eq_true_2; [done|]. by repeat constructor.
Qed.

Lemma grown_app (o : option (list string)) (pieces1 pieces2 : list string) :
  grown o (pieces1 ++ pieces2) = let! o1 := grown o pieces1 in grown o1 pieces2.
Proof.
  destruct o as [l|]; cbn [grown bind].
  - by rewrite fresh_app, app_assoc.
  - destruct (decide (Forall (λ piece, Py.strip piece = "") pieces1)) as [H1|H1].
    + rewrite (bool_decide_eq_true_2 _ H1). cbn [bind grown].
      destruct (decide (Forall (λ piece, Py.strip piece = "") pieces2)) as [H2|H2].
      * rewrite !bool_decide_eq_true_2; [done|done|]. by apply Forall_app.
      * rewrite !bool_decide_eq_false_2; [done|done|]. by intros [_ ?]%Forall_app.
    + rewrite (bool_decide_eq_false_2 _ H1). cbn [bind].
      rewrite bool_decide_eq_false_2; [done|]. by intros [? _]%Forall_app.
Qed.

Lemma getattr_put_grown
    (self : Word) (a : attr) (pieces : list string) (o : option (list string)) :
  grown (getattr self a) pieces = Return o → getattr (put self a o) a = o.
Proof.
  destruct (getattr self a) as [l|] eqn:Hget; cbn [grown].
  - intros [= <-]. cbn [put]. by rewrite getattr_set_attr, decide_True.
  - case_bool_decide; [|done]. by intros [= <-].
Qed.

Lemma put_put (self : Word) (a : attr) (o1 o2 : option (list string)) (pieces : list string) :
  grown o1 pieces = Return o2 → put (put self a o1) a o2 = put self a o2.
Proof.
  destruct o1 as [l1|]; cbn [grown].
  - intros [= <-]. cbn [put]. apply set_attr_set_attr.
  - done.
Qed.

(** The loop of [merge] over the values of one attribute: the test on the
    value is covered by the test on its pieces. *)
Lemma merge_loop (a : attr) (values : list string) (self : Word) :
  for_each (λ self value,
              if bool_decide (value ≠ "") then append_to_attr self a value
              else Return self) values self
  = let! o := grown (getattr self a) (values ≫= Py.split_on LINE_SEP) in
    Return (put self a o).
Proof.
  revert self. induction values as [|value values IH]; intros self.
  - cbn [for_each]. change ([] ≫= Py.split_on LINE_SEP) with (@nil string).
    rewrite <- (append_loop a [] self). reflexivity.
  - cbn [for_each].
    assert ((if bool_decide (value ≠ "") then append_to_attr self a value
             else Return self)
            = let! o := grown (getattr self a) (Py.split_on LINE_SEP value) in
              Return (put self a o)) as ->.
    { case_bool_decide as Hvalue; [apply append_to_attr_grown|].
      subst value.
      change (Py.split_on LINE_SEP "") with [""].
      by rewrite grown_blank; cbn [bind]; rewrite put_getattr. }
    rewrite bind_cons, grown_app.
    destruct (grown (getattr self a) (Py.split_on LINE_SEP value)) as [o1|err] eqn:H1;
      cbn [bind]; [|done].
    rewrite IH, (getattr_put_grown _ _ _ _ H1).
    destruct (grown o1 (values ≫= Py.split_on LINE_SEP)) as [o2|err] eqn:H2;
      cbn [bind]; [|done].
    by rewrite (put_put _ _ _ _ _ H2).
Qed.

Lemma merge_attr_grown (other self : Word) (a : attr) :
  merge_attr other self a
  = match getattr other a with
    | None => Raise TypeError
    | Some values =>
        let! o := grown (getattr self a) (values ≫= Py.split_on LINE_SEP) in
        Return (put self a o)
    end.
Proof. unfold merge_attr. destruct (getattr other a); [apply merge_loop|done]. Qed.

(** [merge] on two equal entries, in one step. *)
Lemma merge_equal (e e2 : Word) :
  __eq__ e e2 = true →
  merge e e2
  = match meanings e2 with
    | None => Raise TypeError
    | Some values =>
        let! grown_meanings := grown (meanings e) (values ≫= Py.split_on LINE_SEP) in
        Return (mkWord (language e) (self_ARTICLES e) (tags e) (word e)
                  grown_meanings
                  (examples e ++ fresh (examples e) (examples e2 ≫= Py.split_on LINE_SEP))
                  (other e ++ fresh (other e) (other e2 ≫= Py.split_on LINE_SEP))
                  (sep e))
    end.
Proof.
  intros Heq. unfold merge. rewrite Heq. cbn [for_each].
  rewrite merge_attr_grown. cbn [getattr].
  destruct (meanings e2) as [values|]; [|done].
  destruct e as [lang arts tgs wd [l|] ex ot sp]; cbn [meanings grown bind].
  - repeat (rewrite merge_attr_grown;
            cbv [put set_attr getattr grown bind language self_ARTICLES tags word
                 meanings examples other sep]).
    reflexivity.
  - case_bool_decide; cbn [bind]; [|done].
    repeat (rewrite merge_attr_grown;
            cbv [put set_attr getattr grown bind language self_ARTICLES tags word
                 meanings examples other sep]).
    reflexivity.
Qed.

Lemma elem_of_pieces (values : list string) (x : string) :
  x ∈ (Py.strip <$> (values ≫= Py.split_on LINE_SEP))
  ↔ ∃ value piece : string,
      value ∈ values ∧ piece ∈ Py.split_on LINE_SEP value ∧ x = Py.strip piece.
Proof.
  rewrite list_elem_of_fmap. split.
  - intros (piece & -> & (value & Hpiece & Hvalue)%list_elem_of_bind). eauto.
  - intros (value & piece & Hvalue & Hpiece & ->). exists piece. split; [done|].
    apply list_elem_of_bind. eauto.
Qed.

Lemma merged_elem (e2 : Word) (a : attr) (present values : list string) (x : string) :
  getattr e2 a = Some values →
  x ∈ fresh present (values ≫= Py.split_on LINE_SEP)
  ↔ true = true ∧ (x ∉ present) ∧ x ≠ ""
    ∧ ∃ (values' : list string) (value piece : string),
        getattr e2 a = Some values' ∧ value ∈ values'
        ∧ piece ∈ Py.split_on LINE_SEP value ∧ x = Py.strip piece.
Proof.
  intros Hget. rewrite fresh_elem, elem_of_pieces, Hget. split.
  - intros (? & ? & value & piece & ? & ? & ?). eauto 10.
  - intros (_ & ? & ? & values' & value & piece & [= <-] & ? & ? & ?). eauto 10.
Qed.

Lemma merge_cases (e e2 : Word) :
  match merge e e2 with
  | Return e' =>
      same_identity e e'
      ∧ ∀ a : attr,
          match getattr e a with
          | Some present =>
              ∃ added : list string,
                getattr e' a = Some (present ++ added)
                ∧ NoDup added
                ∧ ∀ x : string,
                    x ∈ added
                    ↔ __eq__ e e2 = true ∧ (x ∉ present) ∧ x ≠ ""
                      ∧ ∃ (values : list string) (value piece : string),
                          getattr e2 a = Some values ∧ value ∈ values
                          ∧ piece ∈ Py.split_on LINE_SEP value
                          ∧ x = Py.strip piece
          | None => getattr e' a = None
          end
  | Raise err =>
      err = TypeError ∧ __eq__ e e2 = true
      ∧ (meanings e = None ∨ meanings e2 = None)
  end.
Proof.
  destruct (__eq__ e e2) eqn:Heq.
  - rewrite (merge_equal _ _ Heq).
    destruct (meanings e2) as [values|] eqn:Hvalues; [|by auto].
    destruct (meanings e) as [l|] eqn:Hl; cbn [grown bind].
    + split; [done|]. intros [| |]; cbn [getattr meanings examples other]; rewrite ?Hl.
      * eexists. split; [done|]. split; [apply fresh_NoDup|].
        intros x. by apply (merged_elem e2 attr_meanings).
      * eexists. split; [done|]. split; [apply fresh_NoDup|].
        intros x. by apply (merged_elem e2 attr_examples).
      * eexists. split; [done|]. split; [apply fresh_NoDup|].
        intros x. by apply (merged_elem e2 attr_other).
    + case_bool_decide; cbn [bind]; [|by auto].
      split; [done|]. intros [| |]; cbn [getattr meanings examples other]; rewrite ?Hl.
      * done.
      * eexists. split; [done|]. split; [apply fresh_NoDup|].
        intros x. by apply (merged_elem e2 attr_examples).
      * eexists. split; [done|]. split; [apply fresh_NoDup|].
        intros x. by apply (merged_elem e2 attr_other).
  - unfold merge. rewrite Heq. split; [done|]. intros a.
    destruct (getattr e a) as [present|]; [|done].
    exists []. rewrite app_nil_r. split; [done|]. split; [constructor|].
    intros x. split; [by intros ?%not_elem_of_nil|by intros [? _]].
Qed.

(** X8: the contract of [merge].  It raises only [TypeError], and only for
    two equal entries one of which has [None] for meanings.  Otherwise the
    identity of the entry is unchanged and each of its lists keeps what it
    held, in place, followed by the new elements: without repetition, and
    only when the entries are equal, the trimmed pieces of the values of
    the other entry's list that are not empty and were not in the list. *)
Theorem merge_contract (e e2 : Word) :
  match merge e e2 with
  | Return e' =>
      same_identity e e'
      ∧ ∀ a : attr,
          match getattr e a with
          | Some present =>
              ∃ added : list string,
                getattr e' a = Some (present ++ added)
                ∧ NoDup added
                ∧ ∀ x : string,
                    x ∈ added
                    ↔ __eq__ e e2 = true ∧ (x ∉ present) ∧ x ≠ ""
                      ∧ ∃ (values : list string) (value piece : string),
                          getattr e2 a = Some values ∧ value ∈ values
                          ∧ piece ∈ Py.split_on LINE_SEP value
                          ∧ x = Py.strip piece
          | None => getattr e' a = None
          end
  | Raise err =>
      err = TypeError ∧ __eq__ e e2 = true
      ∧ (meanings e = None ∨ meanings e2 = None)
  end.
Proof. exact (merge_cases e e2). Qed.

Lemma eq_same_identity (e e' other : Word) :
  same_identity e e' → __eq__ e' other = __eq__ e other.
Proof. intros (Hl & Hw & Ht & _). unfold __eq__. by rewrite Hl, Hw, Ht. Qed.

(** X9: merging the same entry a second time changes nothing: what [merge]
    returned is returned again when the call is repeated on it. *)
Theorem merge_idempotent (e e2 e' : Word) :
  merge e e2 = Return e' → merge e' e2 = Return e'.
Proof.
  destruct (__eq__ e e2) eqn:Heq.
  - rewrite (merge_equal _ _ Heq).
    destruct (meanings e2) as [values|] eqn:Hvalues; [|done].
    destruct (grown (meanings e) (values ≫= Py.split_on LINE_SEP))
      as [o|] eqn:Hgrown; [|done].
    cbn [bind]. intros [= <-].
    rewrite merge_equal by (by rewrite <- Heq). rewrite Hvalues.
    cbn [meanings examples other language self_ARTICLES tags word sep].
    assert (grown o (values ≫= Py.split_on LINE_SEP) = Return o) as ->.
    { destruct (meanings e) as [l|]; cbn [grown] in Hgrown.
      - injection Hgrown as <-. cbn [grown]. by rewrite fresh_again, app_nil_r.
      - case_bool_decide; [|done]. injection Hgrown as <-. cbn [grown].
        by rewrite bool_decide_eq_true_2. }
    cbn [bind]. by rewrite !fresh_again, !app_nil_r.
  - unfold merge at 1. rewrite Heq. intros [= <-]. unfold merge. by rewrite Heq.
Qed.

(** X10: lists without repetition stay without repetition under [merge]. *)
Theorem merge_NoDup (e e2 e' : Word) (a : attr) (present : list string) :
  merge e e2 = Return e' →
  getattr e a = Some present →
  NoDup present →
  ∃ l : list string, getattr e' a = Some l ∧ NoDup l.
Proof.
  intros Hmerge Hget Hnodup. pose proof (merge_cases e e2) as Hcontract.
  rewrite Hmerge in Hcontract. destruct Hcontract as [_ Hattr].
  specialize (Hattr a). rewrite Hget in Hattr.
  destruct Hattr as (added & Hget' & Hadded & Helem).
  eexists. split; [done|]. apply NoDup_app. split; [done|]. split; [|done].
  intros x Hx Hin. by apply Helem in Hin as (_ & ? & _).
Qed.

(** ** The sort key and the initial *)

(** A part the loop of [get_sortable_word] passes over: an article, or a
    part whose first character is no letter. *)
Definition skipped (articles : list string) (part : string) : Prop :=
  Py.lower (Py.strip part) ∈ articles
  ∨ ∃ (c : ascii) (rest : string),
      Py.strip part = String c rest ∧ Py.isalpha c = false.

(** A part the loop stops at: no article, and its first character, once
    trimmed, is the letter [c]. *)
Definition sortable (articles : list string) (part : string) (c : ascii) : Prop :=
  (Py.lower (Py.strip part) ∉ articles)
  ∧ ∃ rest : string, Py.strip part = String c rest ∧ Py.isalpha c = true.

(** A part on which [part[0]] raises: no article, and empty once trimmed. *)
Definition blank_part (articles : list string) (part : string) : Prop :=
  (Py.lower (Py.strip part) ∉ articles) ∧ Py.strip part = "".

Lemma find_initial_outcome (articles : list string) (i : nat) (parts : list string) :
  match find_initial articles i parts with
  | Return (Some (j, c)) =>
      ∃ (k : nat) (part : string),
        j = i + k ∧ parts !! k = Some part ∧ sortable articles part c
        ∧ Forall (skipped articles) (take k parts)
  | Return None => Forall (skipped articles) parts
  | Raise err =>
      err = IndexError
      ∧ ∃ (k : nat) (part : string),
          parts !! k = Some part ∧ blank_part articles part
          ∧ Forall (skipped articles) (take k parts)
  end.
Proof.
  revert i. induction parts as [|part parts IH]; intros i; [by constructor|].
  cbn [find_initial].
  assert (skipped articles part →
          match find_initial articles (S i) parts with
          | Return (Some (j, c)) =>
              ∃ (k : nat) (part' : string),
                j = i + k ∧ (part :: parts) !! k = Some part'
                ∧ sortable articles part' c
                ∧ Forall (skipped articles) (take k (part :: parts))
          | Return None => Forall (skipped articles) (part :: parts)
          | Raise err =>
              err = IndexError
              ∧ ∃ (k : nat) (part' : string),
                  (part :: parts) !! k = Some part' ∧ blank_part articles part'
                  ∧ Forall (skipped articles) (take k (part :: parts))
          end) as Hskip.
  { intros Hpart. specialize (IH (S i)).
    destruct (find_initial articles (S i) parts) as [[[j c]|]|err].
    - destruct IH as (k & part' & -> & Hk & Hsort & Hbefore).
      exists (S k), part'. split; [lia|]. split; [done|]. split; [done|].
      by constructor.
    - by constructor.
    - destruct IH as (-> & k & part' & Hk & Hblank & Hbefore).
      split; [done|]. exists (S k), part'. split; [done|]. split; [done|].
      by constructor. }
  case_bool_decide as Hart.
  - destruct (Py.strip part) as [|c rest] eqn:Hstrip.
    + split; [done|]. exists 0, part. split; [done|]. split; [|constructor].
      split; [by rewrite Hstrip|done].
    + destruct (Py.isalpha c) eqn:Halpha.
      * exists 0, part. split; [lia|]. split; [done|]. split; [|constructor].
        split; [by rewrite Hstrip|]. by exists rest.
      * apply Hskip. right. by exists c, rest.
  - apply Hskip. by left.
Qed.

Lemma join_chars_head (c : ascii) (s : string) :
  ∃ rest : string, Py.join " " (Py.chars (String c s)) = String c rest.
Proof. cbn. destruct (Py.chars s); by eexists. Qed.

Lemma sortable_word_cases (self : Word) :
  let parts := Py.split_on " " (replace_odd_characters (word self)) in
  let articles := self_ARTICLES self in
  match get_sortable_word replace_odd_characters self with
  | Return key =>
      ∃ (k : nat) (part : string) (c : ascii),
        parts !! k = Some part ∧ sortable articles part c
        ∧ Forall (skipped articles) (take k parts)
        ∧ key = Py.join " " (Py.chars part)
  | Raise (WordError _) => Forall (skipped articles) parts
  | Raise IndexError =>
      ∃ (k : nat) (part : string),
        parts !! k = Some part ∧ blank_part articles part
        ∧ Forall (skipped articles) (take k parts)
  | Raise _ => False
  end.
Proof.
  intros parts articles. unfold get_sortable_word. fold parts articles.
  pose proof (find_initial_outcome articles 0 parts) as Hfind.
  destruct (find_initial articles 0 parts) as [[[j c]|]|err]; cbn [bind].
  - destruct Hfind as (k & part & -> & Hk & Hsort & Hbefore).
    cbn [Nat.add]. rewrite Hk. by exists k, part, c.
  - done.
  - destruct Hfind as (-> & k & part & Hk & Hblank & Hbefore). by exists k, part.
Qed.

(** X11: the contract of [get_sortable_word].  It returns a key when some
    part of the headword (odd characters replaced, split on spaces) is no
    article and begins, once trimmed, with a letter, all parts before it
    being articles or beginning with something else: the key is the
    characters of that one part joined by spaces.  It raises [WordError]
    when every part is passed over, and [IndexError] when a part that is no
    article and is blank comes before any part to stop at. *)
Theorem get_sortable_word_contract (self : Word) :
  let parts := Py.split_on " " (replace_odd_characters (word self)) in
  let articles := self_ARTICLES self in
  match get_sortable_word replace_odd_characters self with
  | Return key =>
      ∃ (k : nat) (part : string) (c : ascii),
        parts !! k = Some part ∧ sortable articles part c
        ∧ Forall (skipped articles) (take k parts)
        ∧ key = Py.join " " (Py.chars part)
  | Raise (WordError _) => Forall (skipped articles) parts
  | Raise IndexError =>
      ∃ (k : nat) (part : string),
        parts !! k = Some part ∧ blank_part articles part
        ∧ Forall (skipped articles) (take k parts)
  | Raise _ => False
  end.
Proof. exact (sortable_word_cases self). Qed.

Lemma strip_first (s : string) (c : ascii) (rest : string) :
  Py.strip s = String c rest →
  ∃ (d : ascii) (s' : string), s = String d s' ∧ (d = c ∨ Py.isspace d = true).
Proof.
  destruct s as [|d s']; [done|]. intros Hstrip. exists d, s'. split; [done|].
  destruct (Py.isspace d) eqn:Hd; [by right|]. left.
  unfold Py.strip in Hstrip. cbn [Py.lstrip] in Hstrip. rewrite Hd in Hstrip.
  destruct (rstrip_keeps_head d s' Hd) as [r Hr]. rewrite Hr in Hstrip.
  by injection Hstrip.
Qed.

(** X12: [get_initial] succeeds exactly when [get_sortable_word] does, and
    raises what it raises.  The initial is the first character of the key;
    it is a letter, unless the part the key is made of begins with a white
    space character other than the space (a tab, say), which is then the
    initial. *)
Theorem get_initial_contract (self : Word) :
  match get_initial replace_odd_characters self with
  | Return initial =>
      ∃ (c : ascii) (rest : string),
        get_sortable_word replace_odd_characters self = Return (String c rest)
        ∧ initial = String c EmptyString
        ∧ (Py.isalpha c = true ∨ Py.isspace c = true)
  | Raise err => get_sortable_word replace_odd_characters self = Raise err
  end.
Proof.
  unfold get_initial. pose proof (sortable_word_cases self) as Hkey.
  destruct (get_sortable_word replace_odd_characters self) as [key|err];
    cbn [bind]; [|done].
  cbv zeta in Hkey. destruct Hkey as (k & part & c & _ & [_ (rest & Hstrip & Halpha)] & _ & ->).
  destruct (strip_first _ _ _ Hstrip) as (d & part' & -> & Hd).
  destruct (join_chars_head d part') as [key' ->].
  exists d, key'. split; [done|]. split; [done|].
  destruct Hd as [->|Hd]; by auto.
Qed.

(** ** Ordering and hashing *)

(** [hash] on strings: the interpreter fixes it per process. *)
Variable str_hash : string → Z.

Definition __hash__ (self : Word) : Z :=
  str_hash (language self +:+ word self +:+ Py.join " " (tags self)).

(** [self < other] for two entries; strings are ordered character by
    character, by code point. *)
Definition __lt__ (self other : Word) : result bool :=
  let! self_key := get_sortable_word replace_odd_characters self in
  let! other_key := get_sortable_word replace_odd_characters other in
  Return (String.ltb self_key other_key).

(** X13: entries that compare equal have the same hash, and neither
    appending to a list nor merging changes the hash of an entry or what it
    compares equal to. *)
Theorem hash_respects_eq (e e2 : Word) :
  (__eq__ e e2 = true → __hash__ e = __hash__ e2)
  ∧ (∀ (a : attr) (new_value : string) (e' : Word),
       append_to_attr e a new_value = Return e' →
       __hash__ e' = __hash__ e ∧ ∀ x : Word, __eq__ e' x = __eq__ e x)
  ∧ (∀ e' : Word,
       merge e e2 = Return e' →
       __hash__ e' = __hash__ e ∧ ∀ x : Word, __eq__ e' x = __eq__ e x).
Proof.
  assert (∀ e' : Word, same_identity e e' →
            __hash__ e' = __hash__ e ∧ ∀ x : Word, __eq__ e' x = __eq__ e x) as Hsame.
  { intros e' Hid. split; [|intros x; by apply eq_same_identity].
    destruct Hid as (Hl & Hw & Ht & _). unfold __hash__. by rewrite Hl, Hw, Ht. }
  split; [|split].
  - intros (Hl & Hw & Ht)%eq_true_iff. unfold __hash__. by rewrite Hl, Hw, Ht.
  - intros a new_value e' Happend. apply Hsame.
    pose proof (append_to_attr_cases e a new_value) as Hcontract.
    rewrite Happend in Hcontract. by destruct Hcontract as [? _].
  - intros e' Hmerge. apply Hsame.
    pose proof (merge_cases e e2) as Hcontract.
    rewrite Hmerge in Hcontract. by destruct Hcontract as [? _].
Qed.

Lemma join_chars_cons (c : ascii) (s : string) :
  Py.join " " (Py.chars (String c s))
  = String c match s with
             | EmptyString => EmptyString
             | String _ _ => String " " (Py.join " " (Py.chars s))
             end.
Proof. destruct s; reflexivity. Qed.

(** Joining the characters of two texts by spaces keeps their order. *)
Lemma compare_join_chars (p q : string) :
  String.compare (Py.join " " (Py.chars p)) (Py.join " " (Py.chars q))
  = String.compare p q.
Proof.
  revert q. induction p as [|c p IH]; intros [|d q].
  - reflexivity.
  - rewrite join_chars_cons. reflexivity.
  - rewrite join_chars_cons. reflexivity.
  - rewrite !join_chars_cons. cbn [String.compare].
    destruct (Ascii.compare c d); [|done..].
    destruct p as [|c' p], q as [|d' q]; [done..|].
    cbn [String.compare]. unfold Ascii.compare at 1. rewrite N.compare_refl.
    apply IH.
Qed.

Lemma compare_refl (s : string) : String.compare s s = Eq.
Proof.
  pose proof (String.compare_antisym s s) as H.
  by destruct (String.compare s s).
Qed.

Lemma ltb_trans (s1 s2 s3 : string) :
  String.ltb s1 s2 = true → String.ltb s2 s3 = true → String.ltb s1 s3 = true.
Proof.
  unfold String.ltb. intros H12 H23.
  destruct (String.compare s1 s2) eqn:C12; try done.
  destruct (String.compare s2 s3) eqn:C23; try done.
  assert (String.le s1 s3) as Hle.
  { trans s2; unfold String.le, String.leb; [by rewrite C12|by rewrite C23]. }
  unfold String.le, String.leb in Hle.
  destruct (String.compare s1 s3) eqn:C13; [|done..].
  apply String.compare_eq_iff in C13 as ->.
  rewrite String.compare_antisym, C23 in C12. done.
Qed.

(** X14: [__lt__] raises what the sort key of the first entry raises, else
    what that of the second raises.  When both keys exist the entries are
    ordered as the two parts the keys are made of, character by character:
    no entry is below itself, and the order is transitive. *)
Theorem lt_strict_order (e1 e2 e3 : Word) :
  match get_sortable_word replace_odd_characters e1,
        get_sortable_word replace_odd_characters e2 with
  | Raise err, _ => __lt__ e1 e2 = Raise err
  | Return _, Raise err => __lt__ e1 e2 = Raise err
  | Return key1, Return key2 =>
      ∃ part1 part2 : string,
        key1 = Py.join " " (Py.chars part1) ∧ key2 = Py.join " " (Py.chars part2)
        ∧ __lt__ e1 e2 = Return (String.ltb part1 part2)
  end
  ∧ __lt__ e1 e1 ≠ Return true
  ∧ (__lt__ e1 e2 = Return true → __lt__ e2 e1 = Return false)
  ∧ (__lt__ e1 e2 = Return true → __lt__ e2 e3 = Return true →
     __lt__ e1 e3 = Return true).
Proof.
  unfold __lt__.
  pose proof (sortable_word_cases e1) as H1.
  pose proof (sortable_word_cases e2) as H2.
  destruct (get_sortable_word replace_odd_characters e1) as [key1|err1]; cbn [bind].
  - split; [|split; [|split]].
    + destruct (get_sortable_word replace_odd_characters e2) as [key2|err2];
        cbn [bind]; [|done].
      cbv zeta in H1, H2.
      destruct H1 as (? & part1 & ? & _ & _ & _ & ->).
      destruct H2 as (? & part2 & ? & _ & _ & _ & ->).
      exists part1, part2. split; [done|]. split; [done|].
      unfold String.ltb. by rewrite compare_join_chars.
    + unfold String.ltb. by rewrite compare_refl.
    + destruct (get_sortable_word replace_odd_characters e2) as [key2|err2];
        cbn [bind]; [|done].
      unfold String.ltb. rewrite (String.compare_antisym key2 key1).
      by destruct (String.compare key1 key2).
    + destruct (get_sortable_word replace_odd_characters e2) as [key2|err2];
        cbn [bind]; [|done].
      destruct (get_sortable_word replace_odd_characters e3) as [key3|err3];
        cbn [bind]; [|done].
      intros [= H12] [= H23]. by rewrite (ltb_trans _ _ _ H12 H23).
  - split; [done|]. split; [done|]. split; [done|]. done.
Qed.

(** ** Tags written and read again *)

Lemma prefix_empty (s : string) : String.prefix EmptyString s = true.
Proof. by destruct s. Qed.

Lemma contains_char_cons (c d : ascii) (s : string) :
  Py.contains_char c (String d s) = false → d ≠ c ∧ Py.contains_char c s = false.
Proof.
  unfold Py.contains_char. cbn [Py.chars].
  intros Hnot%bool_decide_eq_false. split.
  - intros ->. apply Hnot. left.
  - apply bool_decide_eq_false. intros Hin. apply Hnot. by right.
Qed.

(** Splitting on spaces a word without space followed by a space and a
    text gives the word and the split of the text. *)
Lemma split_word_space (w rest : string) :
  Py.contains_char " " w = false →
  Py.split_on " " (w +:+ " " +:+ rest) = w :: Py.split_on " " rest.
Proof.
  unfold Py.split_on. induction w as [|c w IH]; intros Hw.
  - change (EmptyString +:+ " " +:+ rest) with (String " " rest).
    cbn [Py.split_scan String.prefix String.length Nat.sub].
    destruct (Ascii.ascii_dec " " " ") as [_|Hne]; [|done].
    by rewrite prefix_empty.
  - apply contains_char_cons in Hw as [Hc Hw].
    change (String c w +:+ " " +:+ rest) with (String c (w +:+ " " +:+ rest)).
    cbn [Py.split_scan String.prefix].
    destruct (Ascii.ascii_dec " " c) as [Heq|_]; [by destruct Hc|].
    by rewrite IH.
Qed.

Lemma split_word (w : string) :
  Py.contains_char " " w = false → Py.split_on " " w = [w].
Proof.
  unfold Py.split_on. induction w as [|c w IH]; intros Hw; [done|].
  apply contains_char_cons in Hw as [Hc Hw].
  cbn [Py.split_scan String.prefix].
  destruct (Ascii.ascii_dec " " c) as [Heq|_]; [by destruct Hc|].
  by rewrite IH.
Qed.

(** Splitting on spaces what was joined by spaces gives back the words,
    when no word holds a space; the empty list comes back as one empty
    word. *)
Lemma split_join_words (l : list string) :
  Forall (λ w, Py.contains_char " " w = false) l →
  Py.split_on " " (Py.join " " l) = match l with [] => [""] | _ => l end.
Proof.
  induction l as [|w l IH]; intros Hl; [done|].
  apply Forall_cons in Hl as [Hw Hl]. destruct l as [|w2 l].
  - by apply split_word.
  - rewrite join_cons by done. rewrite split_word_space by done.
    by rewrite (IH Hl).
Qed.

(** What [format_tags] writes for one tag, as a list of none or one. *)
Definition rendered (tag : string) : option string :=
  if bool_decide (tag ∈ GENDER_NUMBER) then Some ("n." +:+ tag)
  else if bool_decide (tag ≠ "n") then Some tag
  else None.

Ltac vocabulary_case :=
  split; [discriminate|]; split; [reflexivity|]; split; [reflexivity|];
  unfold rendered; case_bool_decide;
  [ match goal with
    | Hg : _ ∈ GENDER_NUMBER |- _ =>
        first
          [ exfalso; apply elem_of_GENDER_NUMBER in Hg; revert Hg; compute_done
          | split; [reflexivity|]; split; [discriminate|]; right;
            split; [reflexivity|exact Hg] ]
    end
  | match goal with
    | Hg : _ ∉ GENDER_NUMBER |- _ =>
        first
          [ exfalso; apply Hg, elem_of_GENDER_NUMBER; compute_done
          | case_bool_decide;
            [ first
                [ done
                | split; [reflexivity|]; split; [discriminate|]; left;
                  split; [reflexivity|exact Hg] ]
            | first [reflexivity|done] ] ]
    end ].

Lemma vocabulary_tag (tag : string) :
  tag ∈ WORD_TAGS →
  tag ≠ "" ∧ Py.contains_char " " tag = false ∧ Py.split_on "." tag = [tag]
  ∧ match rendered tag with
    | Some text =>
        Py.contains_char " " text = false ∧ text ≠ ""
        ∧ (Py.split_on "." text = [tag] ∧ tag ∉ GENDER_NUMBER
           ∨ Py.split_on "." text = ["n"; tag] ∧ tag ∈ GENDER_NUMBER)
    | None => tag = "n"
    end.
Proof.
  rewrite elem_of_WORD_TAGS. intros Htag.
  repeat (apply elem_of_cons in Htag as [->|Htag]; [vocabulary_case|]).
  by apply not_elem_of_nil in Htag.
Qed.

Lemma format_tags_rendered (self : Word) :
  format_tags self
  = if bool_decide (Exists (λ tag, tag ∈ GENDER_NUMBER) (tags self)) then
      if bool_decide ("n" ∉ tags self)
      then Raise (WordError "Only nouns require gender and number tags.")
      else Return (Py.join " " (omap rendered (tags self)))
    else Return (Py.join " " (tags self)).
Proof. reflexivity. Qed.

Lemma elem_of_split_join (l : list string) (o : string) :
  Forall (λ w, Py.contains_char " " w = false) l →
  o ∈ Py.split_on " " (Py.join " " l) ∧ o ≠ "" ↔ o ∈ l ∧ o ≠ "".
Proof.
  intros Hl. rewrite (split_join_words l Hl). destruct l as [|w l]; [|done].
  split; [by intros [->%list_elem_of_singleton ?]|by intros [?%not_elem_of_nil _]].
Qed.

Section TagsReadAgain.

Hypothesis list_of_set_elem :
  ∀ (s : gset string) (x : string), x ∈ list_of_set s ↔ x ∈ s.

Lemma tags_read_again (self : Word) (text : string) :
  (∀ tag : string, tag ∈ tags self → tag ∈ WORD_TAGS) →
  format_tags self = Return text →
  ∀ x : string,
    (x ∈ process_tags list_of_set text ↔ x ∈ tags self)
    ∧ (x ∈ validate_tags (process_tags list_of_set text) ↔ x ∈ tags self).
Proof using list_of_set_elem.
  intros Hvoc Htext x.
  assert (x ∈ process_tags list_of_set text ↔ x ∈ tags self) as Hread.
  { rewrite (process_tags_elem list_of_set list_of_set_elem).
    rewrite format_tags_rendered in Htext.
    case_bool_decide as Hany.
    - case_bool_decide as Hn; [done|]. injection Htext as <-.
      assert (Forall (λ w, Py.contains_char " " w = false)
                (omap rendered (tags self))) as Hwords.
      { apply Forall_forall. intros o (tag & Htag & Ho)%list_elem_of_omap.
        destruct (vocabulary_tag tag (Hvoc tag Htag)) as (_ & _ & _ & Hr).
        rewrite Ho in Hr. by destruct Hr as [? _]. }
      split.
      + intros (o & Ho & Hne & Hx).
        destruct (proj1 (elem_of_split_join _ o Hwords) (conj Ho Hne))
          as [(tag & Htag & Hr)%list_elem_of_omap _].
        destruct (vocabulary_tag tag (Hvoc tag Htag)) as (_ & _ & _ & Hrend).
        rewrite Hr in Hrend. destruct Hrend as (_ & _ & [[Hs _]|[Hs _]]);
          rewrite Hs in Hx.
        * by apply list_elem_of_singleton in Hx as ->.
        * apply elem_of_cons in Hx as [->|Hx]; [done|].
          by apply list_elem_of_singleton in Hx as ->.
      + intros Hx.
        destruct (vocabulary_tag x (Hvoc x Hx)) as (_ & _ & _ & Hrend).
        destruct (rendered x) as [o|] eqn:Hr.
        * exists o. destruct Hrend as (_ & Hne & Hs).
          split; [|split; [done|]].
          -- apply (elem_of_split_join _ o Hwords). split; [|done].
             apply list_elem_of_omap. eauto.
          -- destruct Hs as [[-> _]|[-> _]]; [left|right; left].
        * subst x. apply Exists_exists in Hany as (g & Hg & Hgn).
          destruct (vocabulary_tag g (Hvoc g Hg)) as (_ & _ & _ & Hrend).
          destruct (rendered g) as [o|] eqn:Hrg.
          -- exists o. destruct Hrend as (_ & Hne & Hs).
             split; [|split; [done|]].
             ++ apply (elem_of_split_join _ o Hwords). split; [|done].
                apply list_elem_of_omap. eauto.
             ++ destruct Hs as [[_ Hnot]|[-> _]]; [done|left].
          -- subst g. exfalso. revert Hgn. rewrite elem_of_GENDER_NUMBER.
             compute_done.
    - injection Htext as <-.
      assert (Forall (λ w, Py.contains_char " " w = false) (tags self)) as Hwords.
      { apply Forall_forall. intros tag Htag.
        by destruct (vocabulary_tag tag (Hvoc tag Htag)) as (_ & ? & _). }
      split.
      + intros (tag & Htag & Hne & Hx).
        destruct (proj1 (elem_of_split_join _ tag Hwords) (conj Htag Hne)) as [Hin _].
        destruct (vocabulary_tag tag (Hvoc tag Hin)) as (_ & _ & Hs & _).
        rewrite Hs in Hx. by apply list_elem_of_singleton in Hx as ->.
      + intros Hx.
        destruct (vocabulary_tag x (Hvoc x Hx)) as (Hne & _ & Hs & _).
        exists x. split; [|split; [done|]].
        * by apply (elem_of_split_join _ x Hwords).
        * rewrite Hs. left. }
  split; [done|]. rewrite validate_tags_elem, Hread.
  split; [by intros [? _]|]. intros Hx. split; [done|]. by apply Hvoc.
Qed.

(** X15: the tags of an entry, all of the vocabulary, written by
    [format_tags] and read again by [process_tags] are the same tags, as a
    set (the order in which a set is listed is not fixed); [validate_tags]
    keeps them all. *)
Theorem tags_round_trip (self : Word) (text : string) :
  (∀ tag : string, tag ∈ tags self → tag ∈ WORD_TAGS) →
  format_tags self = Return text →
  ∀ x : string,
    (x ∈ process_tags list_of_set text ↔ x ∈ tags self)
    ∧ (x ∈ validate_tags (process_tags list_of_set text) ↔ x ∈ tags self).
Proof using list_of_set_elem. exact (tags_read_again self text). Qed.

End TagsReadAgain.

(** ** A line written and read again *)

Lemma contains_char_nil (c : ascii) : Py.contains_char c EmptyString = false.
Proof. unfold Py.contains_char. apply bool_decide_eq_false. apply not_elem_of_nil. Qed.

Lemma contains_char_String (c d : ascii) (s : string) :
  Py.contains_char c (String d s) = false
  ↔ d ≠ c ∧ Py.contains_char c s = false.
Proof.
  split; [apply contains_char_cons|]. intros [Hd Hs].
  apply bool_decide_eq_false. cbn [Py.chars]. intros [Heq|Hin]%elem_of_cons.
  - by injection Heq as ->.
  - unfold Py.contains_char in Hs. by apply bool_decide_eq_false in Hs.
Qed.

Lemma contains_char_app (c : ascii) (s1 s2 : string) :
  Py.contains_char c (s1 +:+ s2) = false
  ↔ Py.contains_char c s1 = false ∧ Py.contains_char c s2 = false.
Proof.
  induction s1 as [|d s1 IH].
  - change (EmptyString +:+ s2) with s2. rewrite contains_char_nil.
    split; [by intros ?|by intros [_ ?]].
  - change (String d s1 +:+ s2) with (String d (s1 +:+ s2)).
    rewrite !contains_char_String, IH.
    split; [by intros (? & ? & ?)|by intros ((? & ?) & ?)].
Qed.

Lemma contains_char_join (c : ascii) (sep : string) (l : list string) :
  Py.contains_char c sep = false →
  Forall (λ x, Py.contains_char c x = false) l →
  Py.contains_char c (Py.join sep l) = false.
Proof.
  intros Hsep. induction l as [|x l IH]; intros Hl; [apply contains_char_nil|].
  apply Forall_cons in Hl as [Hx Hl]. destruct l as [|y l]; [done|].
  rewrite join_cons by done. rewrite !contains_char_app. auto.
Qed.

(** Splitting on a one-character separator: a field without the separator,
    followed by the separator and a text, is the first field. *)
Lemma split_field (c : ascii) (field rest : string) :
  Py.contains_char c field = false →
  Py.split_on (String c EmptyString) (field +:+ String c rest)
  = field :: Py.split_on (String c EmptyString) rest.
Proof.
  unfold Py.split_on. induction field as [|d field IH]; intros Hfield.
  - change (EmptyString +:+ String c rest) with (String c rest).
    cbn [Py.split_scan String.prefix String.length Nat.sub].
    destruct (Ascii.ascii_dec c c) as [_|Hne]; [|done].
    by rewrite prefix_empty.
  - apply contains_char_String in Hfield as [Hd Hfield].
    change (String d field +:+ String c rest) with (String d (field +:+ String c rest)).
    cbn [Py.split_scan String.prefix].
    destruct (Ascii.ascii_dec c d) as [Heq|_]; [by destruct Hd|].
    by rewrite IH.
Qed.

Lemma split_last_field (c : ascii) (field : string) :
  Py.contains_char c field = false →
  Py.split_on (String c EmptyString) field = [field].
Proof.
  unfold Py.split_on. induction field as [|d field IH]; intros Hfield; [done|].
  apply contains_char_String in Hfield as [Hd Hfield].
  cbn [Py.split_scan String.prefix].
  destruct (Ascii.ascii_dec c d) as [Heq|_]; [by destruct Hd|].
  by rewrite IH.
Qed.

(** Five fields without the separator, joined by it, split into the five. *)
Lemma split_five_fields (c : ascii) (f0 f1 f2 f3 f4 : string) :
  Py.contains_char c f0 = false → Py.contains_char c f1 = false →
  Py.contains_char c f2 = false → Py.contains_char c f3 = false →
  Py.contains_char c f4 = false →
  Py.split_on (String c EmptyString)
    (f0 +:+ String c (f1 +:+ String c (f2 +:+ String c (f3 +:+ String c f4))))
  = [f0; f1; f2; f3; f4].
Proof.
  intros H0 H1 H2 H3 H4.
  by rewrite !split_field, split_last_field.
Qed.

Lemma rstrip_app_space (s : string) (c : ascii) :
  Py.isspace c = true → Py.rstrip (s +:+ String c EmptyString) = Py.rstrip s.
Proof.
  intros Hc. induction s as [|d s IH].
  - change (EmptyString +:+ String c EmptyString) with (String c EmptyString).
    cbn [Py.rstrip]. by rewrite Hc.
  - change (String d s +:+ String c EmptyString)
      with (String d (s +:+ String c EmptyString)).
    cbn [Py.rstrip]. by rewrite IH.
Qed.

Lemma lstrip_app (s1 s2 : string) :
  Py.lstrip (s1 +:+ s2)
  = match Py.lstrip s1 with
    | EmptyString => Py.lstrip s2
    | String _ _ => Py.lstrip s1 +:+ s2
    end.
Proof.
  induction s1 as [|d s1 IH]; [reflexivity|].
  change (String d s1 +:+ s2) with (String d (s1 +:+ s2)).
  cbn [Py.lstrip]. destruct (Py.isspace d); [exact IH|reflexivity].
Qed.

(** A trailing white space character does not change what [strip] gives. *)
Lemma strip_app_space (s : string) (c : ascii) :
  Py.isspace c = true → Py.strip (s +:+ String c EmptyString) = Py.strip s.
Proof.
  intros Hc. unfold Py.strip. rewrite lstrip_app.
  destruct (Py.lstrip s) as [|d r] eqn:Hs.
  - cbn [Py.lstrip]. by rewrite Hc.
  - by apply rstrip_app_space.
Qed.

(** Nor does a leading one. *)
Lemma strip_cons_space (s : string) (c : ascii) :
  Py.isspace c = true → Py.strip (String c s) = Py.strip s.
Proof. intros Hc. unfold Py.strip. cbn [Py.lstrip]. by rewrite Hc. Qed.

Lemma rstrip_app_r (s1 s2 : string) :
  Py.rstrip s2 ≠ "" → Py.rstrip (s1 +:+ s2) = s1 +:+ Py.rstrip s2.
Proof.
  intros Hs2. induction s1 as [|d s1 IH]; [reflexivity|].
  change (String d s1 +:+ s2) with (String d (s1 +:+ s2)).
  cbn [Py.rstrip]. rewrite IH.
  change (String d s1 +:+ Py.rstrip s2) with (String d (s1 +:+ Py.rstrip s2)).
  destruct (s1 +:+ Py.rstrip s2) as [|? ?] eqn:Happ; [|reflexivity].
  destruct s1; [|done]. by destruct Hs2.
Qed.

(** A text that trimming leaves as it is and that is not empty. *)
Definition trimmed (w : string) : Prop := Py.strip w = w ∧ w ≠ "".

Lemma trimmed_sides (w : string) :
  trimmed w → Py.lstrip w = w ∧ Py.rstrip w = w.
Proof.
  intros [Hstrip Hne]. pose proof (strip_head w) as Hhead.
  rewrite Hstrip in Hhead. destruct w as [|c w]; [done|].
  assert (Py.lstrip (String c w) = String c w) as Hl
    by (cbn [Py.lstrip]; by rewrite Hhead).
  split; [done|]. unfold Py.strip in Hstrip. by rewrite Hl in Hstrip.
Qed.

Lemma rstrip_join_words (l : list string) :
  Forall trimmed l → Py.rstrip (Py.join " " l) = Py.join " " l.
Proof.
  induction l as [|w l IH]; intros Hl; [reflexivity|].
  apply Forall_cons in Hl as [Hw Hl]. destruct l as [|w2 l].
  - by apply trimmed_sides.
  - rewrite join_cons by done. specialize (IH Hl).
    assert (Py.join " " (w2 :: l) ≠ "") as Hne.
    { apply Forall_cons in Hl as [[_ Hw2] _].
      destruct l; [done|]. rewrite join_cons by done. by destruct w2. }
    rewrite rstrip_app_r; [rewrite rstrip_app_r; by rewrite IH|].
    rewrite rstrip_app_r; rewrite IH; [|done]. by destruct (Py.join " " (w2 :: l)).
Qed.

(** Words that are trimmed, joined by spaces, make a trimmed text. *)
Lemma strip_join_words (l : list string) :
  Forall trimmed l → Py.strip (Py.join " " l) = Py.join " " l.
Proof.
  intros Hl. unfold Py.strip. destruct l as [|w l]; [reflexivity|].
  assert (Py.lstrip (Py.join " " (w :: l)) = Py.join " " (w :: l)) as ->.
  { pose proof Hl as [Hw _]%Forall_cons.
    destruct (trimmed_sides w Hw) as [Hlw _]. destruct Hw as [_ Hne].
    destruct l as [|w2 l]; [done|]. rewrite join_cons by done.
    rewrite lstrip_app, Hlw. by destruct w. }
  by apply rstrip_join_words.
Qed.

(** The tab character, the default separator being the string of it. *)
Definition tab_char : ascii := ascii_of_nat 9.

Lemma vocabulary_text (tag : string) :
  tag ∈ WORD_TAGS →
  trimmed tag ∧ Py.contains_char tab_char tag = false
  ∧ match rendered tag with
    | Some text => trimmed text ∧ Py.contains_char tab_char text = false
    | None => True
    end.
Proof.
  rewrite elem_of_WORD_TAGS. intros Htag.
  repeat (apply elem_of_cons in Htag as [->|Htag];
          [vm_compute; repeat split; (reflexivity || discriminate)|]).
  by apply not_elem_of_nil in Htag.
Qed.

(** What [format_tags] returns for tags of the vocabulary is trimmed (or
    empty) and holds no tab. *)
Lemma format_tags_text (self : Word) (text : string) :
  (∀ tag : string, tag ∈ tags self → tag ∈ WORD_TAGS) →
  format_tags self = Return text →
  Py.strip text = text ∧ Py.contains_char tab_char text = false.
Proof.
  intros Hvoc. rewrite format_tags_rendered.
  assert (∀ l : list string,
            Forall (λ w, trimmed w ∧ Py.contains_char tab_char w = false) l →
            Py.strip (Py.join " " l) = Py.join " " l
            ∧ Py.contains_char tab_char (Py.join " " l) = false) as Hjoin.
  { intros l Hl. split.
    - apply strip_join_words. eapply Forall_impl; [exact Hl|]. by intros ? [? _].
    - apply contains_char_join; [reflexivity|].
      eapply Forall_impl; [exact Hl|]. by intros ? [_ ?]. }
  case_bool_decide as Hany.
  - case_bool_decide as Hn; [done|]. intros [= <-]. apply Hjoin.
    apply Forall_forall. intros o (tag & Htag & Ho)%list_elem_of_omap.
    destruct (vocabulary_text tag (Hvoc tag Htag)) as (_ & _ & Hr).
    by rewrite Ho in Hr.
  - intros [= <-]. apply Hjoin. apply Forall_forall. intros tag Htag.
    by destruct (vocabulary_text tag (Hvoc tag Htag)) as (? & ? & _).
Qed.

Lemma repr_char_no_tab (quote c : ascii) :
  quote = "'"%char ∨ quote = ascii_of_nat 34 →
  Py.contains_char tab_char (Py.repr_char quote c) = false.
Proof.
  intros [->| ->]; destruct c as [[] [] [] [] [] [] [] []]; vm_compute; reflexivity.
Qed.

Lemma repr_body_no_tab (quote : ascii) (s : string) :
  quote = "'"%char ∨ quote = ascii_of_nat 34 →
  Py.contains_char tab_char (Py.repr_body quote s) = false.
Proof.
  intros Hq. induction s as [|c s IH]; [apply contains_char_nil|].
  cbn [Py.repr_body]. apply contains_char_app. split; [by apply repr_char_no_tab|done].
Qed.

(** The text of a list of strings never holds a tab: [repr] writes a tab as
    a backslash and a [t]. *)
Lemma repr_list_no_tab (l : list string) :
  Py.contains_char tab_char (Py.repr_list l) = false.
Proof.
  unfold Py.repr_list. apply contains_char_app. split; [reflexivity|].
  apply contains_char_app. split; [|reflexivity].
  apply contains_char_join; [reflexivity|].
  apply Forall_forall. intros text (s & -> & _)%list_elem_of_fmap.
  unfold Py.repr_str. cbv zeta.
  set (quote := if _ : bool then _ else _).
  assert (quote = "'"%char ∨ quote = ascii_of_nat 34) as Hq.
  { subst quote. destruct (_ && _); auto. }
  apply contains_char_String. split.
  - destruct Hq as [->| ->]; discriminate.
  - apply contains_char_app. split; [by apply repr_body_no_tab|].
    apply contains_char_String. split; [|apply contains_char_nil].
    destruct Hq as [->| ->]; discriminate.
Qed.

(** The line of [__str__] as five fields joined by the separator. *)
Lemma str_fields (self : Word) (line : string) :
  __str__ self = Return line →
  ∃ formatted_meanings formatted_tags : string,
    format_meanings self = Return formatted_meanings
    ∧ format_tags self = Return formatted_tags
    ∧ line
      = (word self +:+ " ") +:+ sep self
        +:+ (" " +:+ formatted_meanings +:+ " ") +:+ sep self
        +:+ (if bool_decide (examples self ≠ [])
             then " " +:+ format_examples self +:+ " " else " ") +:+ sep self
        +:+ (if bool_decide (other self ≠ [])
             then " " +:+ Py.repr_list (other self) +:+ " " else " ") +:+ sep self
        +:+ (" " +:+ formatted_tags +:+ newline).
Proof.
  unfold __str__.
  destruct (format_meanings self) as [m|]; [|done]. cbn [bind].
  destruct (format_tags self) as [t|]; [|done]. cbn [bind].
  intros [= <-]. exists m, t. split; [done|]. split; [done|].
  repeat case_bool_decide; by rewrite !string_app_assoc.
Qed.

Lemma standardize_word_strip
    (self_language : string) (articles self_tags : list string) (raw : string) :
  standardize_word self_language articles self_tags (Py.strip raw)
  = standardize_word self_language articles self_tags raw.
Proof. unfold standardize_word. by rewrite strip_idempotent. Qed.

(** Only the presence of the noun tag and of the expression tag matters to
    the normalisation. *)
Lemma standardize_word_tags
    (self_language : string) (articles tags1 tags2 : list string) (raw : string) :
  (∀ x : string, x ∈ tags1 ↔ x ∈ tags2) →
  standardize_word self_language articles tags1 raw
  = standardize_word self_language articles tags2 raw.
Proof.
  intros Htags. unfold standardize_word.
  rewrite (bool_decide_ext ("n" ∈ tags1) ("n" ∈ tags2)) by apply Htags.
  rewrite (bool_decide_ext ("expr" ∉ tags1) ("expr" ∉ tags2)); [done|].
  by rewrite Htags.
Qed.

Section LineReadAgain.

Hypothesis list_of_set_elem :
  ∀ (s : gset string) (x : string), x ∈ list_of_set s ↔ x ∈ s.

(** X16: an entry built by the constructor with the tab separator, whose
    headword, meanings and examples hold no tab, and whose line [__str__]
    writes, is parsed back from that line into an entry of the same
    language, the same headword and the same tags as a set: the identity of
    the entry survives the round trip, up to the order of the tags. *)
Theorem line_round_trip_identity
    (lang raw : string) (raw_tags : list string)
    (raw_meanings raw_examples raw_other : option (list string))
    (raw_sep : option string) (e : Word) (line : string) (listed : list string) :
  __init__ SUPPORTED_LANGUAGES ARTICLES lang raw raw_tags
    raw_meanings raw_examples raw_other raw_sep = Return e →
  sep e = tab →
  __str__ e = Return line →
  Py.contains_char tab_char (word e) = false →
  meanings e = Some listed →
  Forall (λ x, Py.contains_char tab_char x = false) listed →
  Forall (λ x, Py.contains_char tab_char x = false) (examples e) →
  ∃ e' : Word,
    from_line SUPPORTED_LANGUAGES ARTICLES list_of_set (language e) line tab
      = Return e'
    ∧ language e' = language e
    ∧ word e' = word e
    ∧ (∀ x : string, x ∈ tags e' ↔ x ∈ tags e)
    ∧ self_ARTICLES e' = self_ARTICLES e
    ∧ sep e' = sep e.
Proof using list_of_set_elem.
  intros Hinit Hsep Hstr Hword Hlisted Hmeanings Hexamples.
  rewrite init_outcome in Hinit. case_bool_decide as Hlang; [|done].
  destruct (ARTICLES !! Py.lower lang) as [articles|] eqn:Harts; [|done].
  assert (∀ tag : string, tag ∈ tags e → tag ∈ WORD_TAGS) as Hvoc.
  { injection Hinit as <-. cbn [tags]. by intros tag [_ ?]%validate_tags_elem. }
  destruct (str_fields e line Hstr) as (m & t & Hm & Ht & ->).
  destruct (format_tags_text e t Hvoc Ht) as [Htrim Htab].
  unfold format_meanings in Hm. rewrite Hlisted in Hm. injection Hm as <-.
  rewrite Hsep.
  set (f0 := word e +:+ " ").
  set (f1 := " " +:+ Py.join LINE_SEP listed +:+ " ").
  set (f2 := if bool_decide (examples e ≠ [])
             then " " +:+ format_examples e +:+ " " else " ").
  set (f3 := if bool_decide (other e ≠ [])
             then " " +:+ Py.repr_list (other e) +:+ " " else " ").
  set (f4 := " " +:+ t +:+ newline).
  assert (Py.split (f0 +:+ tab +:+ f1 +:+ tab +:+ f2 +:+ tab +:+ f3 +:+ tab +:+ f4) tab
          = Return [f0; f1; f2; f3; f4]) as Hsplit.
  { cbn [Py.split tab]. f_equal.
    apply (split_five_fields tab_char).
    - subst f0. apply contains_char_app. by split.
    - subst f1. apply contains_char_app. split; [done|].
      apply contains_char_app. split; [|done]. by apply contains_char_join.
    - subst f2. destruct (bool_decide (examples e ≠ [])); [|done].
      apply contains_char_app. split; [done|].
      apply contains_char_app. split; [|done]. by apply contains_char_join.
    - subst f3. destruct (bool_decide (other e ≠ [])); [|done].
      apply contains_char_app. split; [done|].
      apply contains_char_app. split; [apply repr_list_no_tab|done].
    - subst f4. apply contains_char_app. split; [done|].
      apply contains_char_app. by split. }
  rewrite (from_line_five _ _ _ _ _ _ _ _ _ _ _ Hsplit), init_outcome.
  assert (language e = Py.lower lang) as Hle by (by injection Hinit as <-).
  rewrite Hle, lower_idempotent, bool_decide_eq_true_2, Harts by done.
  eexists. split; [reflexivity|]. cbn [language word tags self_ARTICLES sep default].
  assert (Py.strip f4 = t) as Hf4.
  { subst f4. change (" " +:+ t +:+ newline) with (String " " (t +:+ newline)).
    rewrite strip_cons_space by done. unfold newline.
    by rewrite strip_app_space. }
  assert (∀ x : string,
            x ∈ validate_tags (process_tags list_of_set (Py.strip f4))
            ↔ x ∈ tags e) as Htags.
  { intros x. rewrite Hf4.
    by destruct (tags_read_again list_of_set_elem e t Hvoc Ht x) as [_ ?]. }
  split; [done|]. split; [|split; [done|]].
  - subst f0. rewrite standardize_word_strip.
    change (word e +:+ " ") with (word e +:+ String " " EmptyString).
    rewrite <- standardize_word_strip, strip_app_space, standardize_word_strip by done.
    rewrite (standardize_word_tags _ _ _ (tags e)) by done.
    injection Hinit as <-. cbn [word tags]. apply standardize_word_fixed.
  - split; [|done]. by injection Hinit as <-.
Qed.

End LineReadAgain.

(** ** The lists of a parsed entry *)

Lemma parse_value_trimmed (value : string) :
  match parse_value value with
  | Some l => l ≠ [] ∧ Forall (λ x, Py.strip x = x) l
  | None => Py.strip value = ""
  end.
Proof.
  unfold parse_value. case_bool_decide as Hblank; [done|]. split.
  - pose proof (split_scan_nonempty LINE_SEP 0 (Py.strip value)) as Hne.
    unfold Py.split_on. by destruct (Py.split_scan LINE_SEP 0 (Py.strip value)).
  - apply Forall_forall. intros x (piece & -> & _)%list_elem_of_fmap.
    apply strip_idempotent.
Qed.

(** X17: in an entry parsed from a line, every element of the three lists
    is trimmed, and the meanings, when they are a list, are not the empty
    list (they are [None] for a blank field). *)
Theorem from_line_lists_trimmed (lang line field_sep : string) :
  match from_line SUPPORTED_LANGUAGES ARTICLES list_of_set lang line field_sep with
  | Return w =>
      match meanings w with
      | Some l => l ≠ [] ∧ Forall (λ x, Py.strip x = x) l
      | None => True
      end
      ∧ Forall (λ x, Py.strip x = x) (examples w)
      ∧ Forall (λ x, Py.strip x = x) (other w)
  | Raise _ => True
  end.
Proof.
  pose proof (from_line_cases lang line field_sep) as Hout.
  destruct (from_line SUPPORTED_LANGUAGES ARTICLES list_of_set lang line field_sep)
    as [w|] eqn:Hw; [|done].
  destruct Hout as (Hsep & Hlen & _).
  destruct (length_five _ Hlen) as (f0 & f1 & f2 & f3 & f4 & Hfields).
  pose proof (split_nonempty_sep line field_sep Hsep) as Hsplit.
  rewrite Hfields in Hsplit.
  destruct (from_line_fields _ _ _ _ _ _ _ _ _ _ _ _ Hsplit Hw) as (-> & -> & -> & _).
  pose proof (parse_value_trimmed f1) as H1.
  pose proof (parse_value_trimmed f2) as H2.
  pose proof (parse_value_trimmed f3) as H3.
  split; [by destruct (parse_value f1)|].
  split.
  - destruct (parse_value f2); [by destruct H2|constructor].
  - destruct (parse_value f3); [by destruct H3|constructor].
Qed.

End Behaviour.


(** ** The further properties on the example entries *)

(** [Word("de", "Haus", ["n"], ["house", "home"], ["Das Haus ist alt."])] *)
Definition Haus_more : Word :=
  mkWord "de" de_articles ["n"] "Haus" (Some ["house"; "home"])
    ["Das Haus ist alt."] [] tab.

(** [Haus] after [add_meaning("run")]. *)
Definition Haus_run : Word :=
  mkWord "de" de_articles ["n"] "Haus" (Some ["house"; "run"]) [] ["see also"] tab.

(** [Haus] after [merge(Haus_more)]. *)
Definition Haus_merged : Word :=
  mkWord "de" de_articles ["n"] "Haus" (Some ["house"; "home"])
    ["Das Haus ist alt."] ["see also"] tab.

(** [Word("de", "die Schule", ["n", "f"], ["school"])] *)
Definition die_Schule_f : Word :=
  mkWord "de" de_articles ["n"; "f"] "die Schule" (Some ["school"]) [] [] tab.

Lemma init_of_own_fields_witness :
  de_init "de" "Haus" ["n"] (Some ["house"]) None (Some ["see also"]) None
    = Return Haus
  ∧ de_init (language Haus) (word Haus) (tags Haus) (meanings Haus)
      (Some (examples Haus)) (Some (other Haus)) (Some (sep Haus))
    = Return Haus.
Proof.
  split; [exact Haus_constructed|].
  exact (init_of_own_fields spec_SUPPORTED_LANGUAGES spec_ARTICLES
           "de" "Haus" ["n"] (Some ["house"]) None (Some ["see also"]) None
           Haus Haus_constructed).
Defined.

Lemma append_to_attr_idempotent_witness :
  add_meaning Haus "run" = Return Haus_run
  ∧ add_meaning Haus_run "run" = Return Haus_run.
Proof.
  assert (append_to_attr Haus attr_meanings "run" = Return Haus_run) as Hfirst
    by (vm_compute; reflexivity).
  split; [exact Hfirst|].
  exact (append_to_attr_idempotent Haus Haus_run attr_meanings "run" Hfirst).
Defined.

Lemma append_to_attr_NoDup_witness :
  getattr Haus attr_meanings = Some ["house"]
  ∧ NoDup ["house"]
  ∧ append_to_attr Haus attr_meanings "run <br>house<br> run" = Return Haus_run
  ∧ ∃ l : list string, getattr Haus_run attr_meanings = Some l ∧ NoDup l.
Proof.
  assert (NoDup ["house"]) as Hnodup by apply NoDup_singleton.
  assert (append_to_attr Haus attr_meanings "run <br>house<br> run" = Return Haus_run)
    as Happend by (vm_compute; reflexivity).
  split; [reflexivity|]. split; [exact Hnodup|]. split; [exact Happend|].
  exact (append_to_attr_NoDup Haus Haus_run attr_meanings "run <br>house<br> run"
           ["house"] eq_refl Hnodup Happend).
Defined.

Lemma merge_idempotent_witness :
  merge Haus Haus_more = Return Haus_merged
  ∧ merge Haus_merged Haus_more = Return Haus_merged.
Proof.
  assert (merge Haus Haus_more = Return Haus_merged) as Hfirst
    by (vm_compute; reflexivity).
  split; [exact Hfirst|].
  exact (merge_idempotent Haus Haus_more Haus_merged Hfirst).
Defined.

Lemma merge_NoDup_witness :
  merge Haus Haus_more = Return Haus_merged
  ∧ getattr Haus attr_meanings = Some ["house"]
  ∧ NoDup ["house"]
  ∧ ∃ l : list string, getattr Haus_merged attr_meanings = Some l ∧ NoDup l.
Proof.
  assert (merge Haus Haus_more = Return Haus_merged) as Hmerge
    by (vm_compute; reflexivity).
  assert (NoDup ["house"]) as Hnodup by apply NoDup_singleton.
  split; [exact Hmerge|]. split; [reflexivity|]. split; [exact Hnodup|].
  exact (merge_NoDup Haus Haus_more Haus_merged attr_meanings ["house"]
           Hmerge eq_refl Hnodup).
Defined.

Lemma tags_round_trip_witness :
  (∀ (s : gset string) (x : string), x ∈ elements s ↔ x ∈ s)
  ∧ (∀ tag : string, tag ∈ tags die_Schule_f → tag ∈ WORD_TAGS)
  ∧ format_tags die_Schule_f = Return "n.f"
  ∧ ("f" ∈ process_tags elements "n.f" ↔ "f" ∈ tags die_Schule_f)
  ∧ ("f" ∈ validate_tags (process_tags elements "n.f") ↔ "f" ∈ tags die_Schule_f).
Proof.
  assert (∀ tag : string, tag ∈ tags die_Schule_f → tag ∈ WORD_TAGS) as Hvoc.
  { intros tag Htag. apply elem_of_WORD_TAGS.
    apply elem_of_cons in Htag as [->|Htag]; [compute_done|].
    apply list_elem_of_singleton in Htag as ->. compute_done. }
  split; [exact (λ s x, elem_of_elements s x)|]. split; [exact Hvoc|].
  split; [reflexivity|].
  exact (tags_round_trip elements (λ s x, elem_of_elements s x)
           die_Schule_f "n.f" Hvoc eq_refl "f").
Defined.

Lemma line_round_trip_identity_witness :
  (∀ (s : gset string) (x : string), x ∈ elements s ↔ x ∈ s)
  ∧ de_init "de" "Haus" ["n"] (Some ["house"]) None (Some ["see also"]) None
      = Return Haus
  ∧ sep Haus = tab
  ∧ __str__ Haus
      = Return ("Haus " +:+ tab +:+ " house " +:+ tab +:+ " " +:+ tab
                +:+ " ['see also'] " +:+ tab +:+ " n" +:+ newline)
  ∧ Py.contains_char tab_char (word Haus) = false
  ∧ meanings Haus = Some ["house"]
  ∧ Forall (λ x, Py.contains_char tab_char x = false) ["house"]
  ∧ Forall (λ x, Py.contains_char tab_char x = false) (examples Haus)
  ∧ ∃ e' : Word,
      de_from_line (language Haus)
        ("Haus " +:+ tab +:+ " house " +:+ tab +:+ " " +:+ tab
         +:+ " ['see also'] " +:+ tab +:+ " n" +:+ newline) tab
        = Return e'
      ∧ language e' = language Haus
      ∧ word e' = word Haus
      ∧ (∀ x : string, x ∈ tags e' ↔ x ∈ tags Haus)
      ∧ self_ARTICLES e' = self_ARTICLES Haus
      ∧ sep e' = sep Haus.
Proof.
  assert (__str__ Haus
          = Return ("Haus " +:+ tab +:+ " house " +:+ tab +:+ " " +:+ tab
                    +:+ " ['see also'] " +:+ tab +:+ " n" +:+ newline)) as Hstr
    by (vm_compute; reflexivity).
  assert (Forall (λ x, Py.contains_char tab_char x = false) ["house"]) as Hm
    by (by repeat constructor).
  assert (Forall (λ x, Py.contains_char tab_char x = false) (examples Haus)) as He
    by constructor.
  split; [exact (λ s x, elem_of_elements s x)|]. split; [exact Haus_constructed|].
  split; [reflexivity|]. split; [exact Hstr|]. split; [reflexivity|].
  split; [reflexivity|]. split; [exact Hm|]. split; [exact He|].
  exact (line_round_trip_identity spec_SUPPORTED_LANGUAGES spec_ARTICLES elements
           (λ s x, elem_of_elements s x)
           "de" "Haus" ["n"] (Some ["house"]) None (Some ["see also"]) None
           Haus _ ["house"] Haus_constructed eq_refl Hstr eq_refl eq_refl Hm He).
Defined.
